(** * python-progressbar: update engine, colour model and ANSI encoder

    A shallow embedding of [progressbar/bar.py] and
    [progressbar/terminal/base.py]: the construction of a bar, its
    percentage, the iterator adapter, destruction, the engine methods
    [update], [start] and [finish] (whose bodies are [pass] in bar.py), the
    CSI and SGR sequence builders, the colour registry, colour
    interpolation and gradients.

    Conventions of the embedding.
    - A Python call that may raise returns a [result]: [Ok v] for a normal
      return, [Raise e] for an exception.  Methods that mutate [self]
      return the new object together with the result.
    - Python [float]s go through the interface [PyFloat].  It has two
      instances: exact rationals ([Qc], the idealised reading used for the
      universally quantified statements) and the kernel's binary64 floats
      (the arithmetic CPython really performs, used to evaluate the code on
      concrete inputs).
    - Python [int]s are [Z].
    - Attribute access on the terminal classes goes through [getattr],
      which walks the instance dictionary and then the classes of the
      method resolution order, as the interpreter does. *)

From Stdlib Require Import ZArith QArith Qcanon Qround Lia List String Ascii Floats.
From stdpp Require Import base option list strings gmap pretty numbers countable.

Local Open Scope string_scope.
Local Open Scope Z_scope.

(** ** Exceptions and results *)

Inductive exception :=
  | AssertionError
  | AttributeError
  | GeneratorExit
  | IndexError
  | KeyError
  | OverflowError
  | StopIteration
  | TypeError
  | ValueError
  | ZeroDivisionError.

Inductive result (A : Type) :=
  | Ok (a : A)
  | Raise (e : exception).
Arguments Ok {A} a.
Arguments Raise {A} e.

#[global] Instance exception_eq_dec : EqDecision exception.
Proof. solve_decision. Defined.

#[global] Instance result_ret : MRet result := fun A a => Ok a.
#[global] Instance result_bind : MBind result := fun A B f m =>
  match m with
  | Ok a => f a
  | Raise e => Raise e
  end.

Definition is_ok {A} (r : result A) : bool :=
  match r with Ok _ => true | Raise _ => false end.

(** ** Python floats *)

Class PyFloat (F : Type) := {
  of_int : Z -> F;                  (* int -> float promotion *)
  fadd : F -> F -> F;
  fsub : F -> F -> F;
  fmul : F -> F -> F;
  fdiv : F -> F -> result F;        (* ZeroDivisionError on a zero divisor *)
  fleb : F -> F -> bool;            (* x <= y *)
  fltb : F -> F -> bool;            (* x < y *)
  feqb : F -> F -> bool;            (* x == y *)
  trunc : F -> result Z             (* int(x): truncation towards zero *)
}.

(** A decimal literal [n/d], correctly rounded. *)
Definition lit `{PyFloat F} (n : Z) (d : positive) : F :=
  match fdiv (of_int n) (of_int (Zpos d)) with
  | Ok x => x
  | Raise _ => of_int 0
  end.

(** x >= y and x > y are the mirrored comparisons. *)
Definition fgeb `{PyFloat F} (x y : F) : bool := fleb y x.
Definition fgtb `{PyFloat F} (x y : F) : bool := fltb y x.

(** Truthiness of a number: everything but zero. *)
Definition ftruthy `{PyFloat F} (x : F) : bool := negb (feqb x (of_int 0)).

(** max(a, b, c) keeps the first of the largest arguments. *)
Definition max3 `{PyFloat F} (a b c : F) : F :=
  let m := if fgtb b a then b else a in
  if fgtb c m then c else m.

(** *** Exact rationals *)

Definition Qc_trunc (q : Qc) : Z := Z.quot (Qnum q) (Zpos (Qden q)).

#[global] Instance Qc_float : PyFloat Qc := {|
  of_int := Qc_of_Z;
  fadd := Qcplus;
  fsub := Qcminus;
  fmul := Qcmult;
  fdiv := fun x y =>
    if Qeq_bool y 0 then Raise ZeroDivisionError else Ok (Qcdiv x y);
  fleb := fun x y => Qle_bool x y;
  fltb := fun x y => negb (Qle_bool y x);
  feqb := fun x y => Qeq_bool x y;
  trunc := fun x => Ok (Qc_trunc x)
|}.

(** *** binary64 *)

Definition float_of_Z (z : Z) : float :=
  SF2Prim (binary_normalize 53 1024 z 0 false).

Definition float_trunc (x : float) : result Z :=
  match Prim2SF x with
  | S754_zero _ => Ok 0
  | S754_finite s m e =>
      let a := match e with
               | Z0 => Zpos m
               | Zpos p => Zpos m * 2 ^ Zpos p
               | Zneg p => Zpos m / 2 ^ Zpos p
               end in
      Ok (if s then - a else a)
  | S754_infinity _ => Raise OverflowError
  | S754_nan => Raise ValueError
  end.

#[global] Instance binary64_float : PyFloat float := {|
  of_int := float_of_Z;
  fadd := PrimFloat.add;
  fsub := PrimFloat.sub;
  fmul := PrimFloat.mul;
  fdiv := fun x y =>
    if PrimFloat.eqb y 0%float then Raise ZeroDivisionError
    else Ok (PrimFloat.div x y);
  fleb := PrimFloat.leb;
  fltb := PrimFloat.ltb;
  feqb := PrimFloat.eqb;
  trunc := float_trunc
|}.

(** ** Sequences *)

(** [seq[i]] with Python's negative indices. *)
Definition getitem {A} (l : list A) (i : Z) : result A :=
  let n := Z.of_nat (length l) in
  let j := if i <? 0 then n + i else i in
  if (j <? 0) || (n <=? j) then Raise IndexError
  else match l !! Z.to_nat j with
       | Some a => Ok a
       | None => Raise IndexError
       end.

Fixpoint assoc {V} (k : string) (l : list (string * V)) : option V :=
  match l with
  | [] => None
  | (k', v) :: l' => if String.eqb k k' then Some v else assoc k l'
  end.

(** ** Strings *)

Definition lower_ascii (c : ascii) : ascii :=
  let n := nat_of_ascii c in
  if (65 <=? n)%nat && (n <=? 90)%nat then ascii_of_nat (n + 32) else c.

(** [str.lower] on the ASCII range. *)
Fixpoint lower (s : string) : string :=
  match s with
  | EmptyString => EmptyString
  | String c s' => String (lower_ascii c) (lower s')
  end.

(** [str.format] restricted to named replacement fields [{name}]:
    [field] holds the name being read while inside braces. *)
Fixpoint format_from (kwargs : list (string * string)) (field : option string)
    (s : string) : result string :=
  match s with
  | EmptyString =>
      match field with
      | None => Ok EmptyString
      | Some _ => Raise ValueError
      end
  | String c rest =>
      match field with
      | None =>
          if Ascii.eqb c "{"%char then format_from kwargs (Some EmptyString) rest
          else out ← format_from kwargs None rest; Ok (String c out)
      | Some name =>
          if Ascii.eqb c "}"%char then
            match assoc name kwargs with
            | Some v => out ← format_from kwargs None rest; Ok (v ++ out)
            | None => Raise KeyError
            end
          else format_from kwargs (Some (name ++ String c EmptyString)) rest
      end
  end.

Definition format (template : string) (kwargs : list (string * string))
    : result string :=
  format_from kwargs None template.

(** * progressbar/terminal/base.py *)

(** ** Objects of the terminal classes *)

Inductive pyval :=
  | VStr (s : string)
  | VInt (n : Z)
  | VTuple (xs : list Z)
  | VNames (xs : list string)
  | VFunction (qualname : string).

Inductive class_name :=
  | CSI_class
  | CSINoArg_class
  | SGR_class
  | SGRColor_class.

Record instance := {
  ob_class : class_name;
  ob_dict : list (string * pyval)   (* instance attributes and filled slots *)
}.

Definition ESC : string := String (ascii_of_nat 27) EmptyString.

(** The names each class body binds, in source order.  Annotations without
    a value ([_code: str], [_start_code: int]) bind nothing; a slot is read
    from [ob_dict] once [__init__] has filled it. *)
Definition class_dict (c : class_name) : list (string * pyval) :=
  match c with
  | CSI_class =>
      [ ("_template", VStr (ESC ++ "[{args}{code}"));
        ("__init__", VFunction "CSI.__init__");
        ("__call__", VFunction "CSI.__call__");
        ("__str__", VFunction "CSI.__str__") ]
  | CSINoArg_class =>
      [ ("__call__", VFunction "CSINoArg.__call__") ]
  | SGR_class =>
      [ ("_code", VStr "m");
        ("__slots__", VNames ["_start_code"; "_end_code"]);
        ("__init__", VFunction "SGR.__init__");
        ("__call__", VFunction "SGR.__call__") ]
  | SGRColor_class =>
      [ ("__slots__", VNames ["_color"; "_start_code"; "_end_code"]);
        ("__init__", VFunction "SGRColor.__init__") ]
  end.

(** Method resolution order (single inheritance throughout). *)
Definition mro (c : class_name) : list class_name :=
  match c with
  | CSI_class => [CSI_class]
  | CSINoArg_class => [CSINoArg_class; CSI_class]
  | SGR_class => [SGR_class; CSI_class]
  | SGRColor_class => [SGRColor_class; SGR_class; CSI_class]
  end.

Fixpoint class_lookup (name : string) (cs : list class_name) : option pyval :=
  match cs with
  | [] => None
  | c :: cs' =>
      match assoc name (class_dict c) with
      | Some v => Some v
      | None => class_lookup name cs'
      end
  end.

(** [self.name]: instance first, then the classes; AttributeError when the
    name is bound nowhere (no class here defines [__getattr__]). *)
Definition getattr (self : instance) (name : string) : result pyval :=
  match assoc name (ob_dict self) with
  | Some v => Ok v
  | None =>
      match class_lookup name (mro (ob_class self)) with
      | Some v => Ok v
      | None => Raise AttributeError
      end
  end.

Definition as_str (v : pyval) : result string :=
  match v with
  | VStr s => Ok s
  | _ => Raise TypeError
  end.

Definition as_args (v : pyval) : result (list Z) :=
  match v with
  | VTuple xs => Ok xs
  | _ => Raise TypeError
  end.

Module CSI.

Definition __init__ (cls : class_name) (code : string) (default_args : list Z)
    : instance :=
  {| ob_class := cls;
     ob_dict := [ ("_code", VStr code); ("_default_args", VTuple default_args) ] |}.

(** [self._template.format(args=';'.join(map(str, args or
    self._default_args)), code=self._code)] *)
Definition __call__ (self : instance) (args : list Z) : result string :=
  template ← getattr self "_template" ≫= as_str;
  shown ← match args with
          | [] => getattr self "_default_args" ≫= as_args
          | _ => Ok args
          end;
  code ← getattr self "_code" ≫= as_str;
  format template [ ("args", String.concat ";" (map pretty shown)); ("code", code) ].

Definition __str__ (self : instance) : result string := __call__ self [].

End CSI.

Module CSINoArg.

Definition __init__ (code : string) : instance :=
  CSI.__init__ CSINoArg_class code [].

Definition __call__ (self : instance) : result string := CSI.__call__ self [].

End CSINoArg.

Definition CUP := CSI.__init__ CSI_class "H" [1; 1].
Definition UP := CSI.__init__ CSI_class "A" [1].
Definition DOWN := CSI.__init__ CSI_class "B" [1].
Definition RIGHT := CSI.__init__ CSI_class "C" [1].
Definition LEFT := CSI.__init__ CSI_class "D" [1].
Definition NEXT_LINE := CSI.__init__ CSI_class "E" [1].
Definition PREVIOUS_LINE := CSI.__init__ CSI_class "F" [1].
Definition COLUMN := CSI.__init__ CSI_class "G" [1].
Definition CLEAR_SCREEN := CSI.__init__ CSI_class "J" [0].
Definition CLEAR_SCREEN_TILL_END := CSINoArg.__init__ "0J".
Definition CLEAR_SCREEN_TILL_START := CSINoArg.__init__ "1J".
Definition CLEAR_SCREEN_ALL := CSINoArg.__init__ "2J".
Definition CLEAR_SCREEN_ALL_AND_HISTORY := CSINoArg.__init__ "3J".
Definition CLEAR_LINE_ALL := CSI.__init__ CSI_class "K" [].
Definition CLEAR_LINE_RIGHT := CSINoArg.__init__ "0K".
Definition CLEAR_LINE_LEFT := CSINoArg.__init__ "1K".
Definition CLEAR_LINE := CSINoArg.__init__ "2K".
Definition SCROLL_UP := CSI.__init__ CSI_class "S" [].
Definition SCROLL_DOWN := CSI.__init__ CSI_class "T" [].
Definition SAVE_CURSOR := CSINoArg.__init__ "s".
Definition RESTORE_CURSOR := CSINoArg.__init__ "u".
Definition HIDE_CURSOR := CSINoArg.__init__ "?25l".
Definition SHOW_CURSOR := CSINoArg.__init__ "?25h".

(** The builders that take optional arguments, and those that take none. *)
Definition csi_builders : list instance :=
  [ CUP; UP; DOWN; RIGHT; LEFT; NEXT_LINE; PREVIOUS_LINE; COLUMN; CLEAR_SCREEN;
    CLEAR_LINE_ALL; SCROLL_UP; SCROLL_DOWN ].
Definition csi_noarg_builders : list instance :=
  [ CLEAR_SCREEN_TILL_END; CLEAR_SCREEN_TILL_START; CLEAR_SCREEN_ALL;
    CLEAR_SCREEN_ALL_AND_HISTORY; CLEAR_LINE_RIGHT; CLEAR_LINE_LEFT; CLEAR_LINE;
    SAVE_CURSOR; RESTORE_CURSOR; HIDE_CURSOR; SHOW_CURSOR ].

Module SGR.

(** Fills the two slots; [CSI.__init__] is not called, so [_code] is the
    class attribute and [_default_args] stays unbound. *)
Definition __init__ (start_code end_code : Z) : instance :=
  {| ob_class := SGR_class;
     ob_dict := [ ("_start_code", VInt start_code); ("_end_code", VInt end_code) ] |}.

(** [self._start_template + text + self._end_template] *)
Definition __call__ (self : instance) (text : string) (args : list Z)
    : result string :=
  start_template ← getattr self "_start_template" ≫= as_str;
  end_template ← getattr self "_end_template" ≫= as_str;
  Ok (start_template ++ text ++ end_template).

End SGR.

Definition encircled := SGR.__init__ 52 54.
Definition framed := SGR.__init__ 51 54.
Definition overline := SGR.__init__ 53 55.
Definition bold := SGR.__init__ 1 22.
Definition gothic := SGR.__init__ 20 10.
Definition italic := SGR.__init__ 3 23.
Definition strike_through := SGR.__init__ 9 29.
Definition fast_blink := SGR.__init__ 6 25.
Definition slow_blink := SGR.__init__ 5 25.
Definition underline := SGR.__init__ 4 24.
Definition double_underline := SGR.__init__ 21 24.
Definition faint := SGR.__init__ 2 22.
Definition inverse := SGR.__init__ 7 27.

Definition sgr_builders : list instance :=
  [ encircled; framed; overline; bold; gothic; italic; strike_through;
    fast_blink; slow_blink; underline; double_underline; faint; inverse ].


(** ** Colours *)

Record RGB := mkRGB { red : Z; green : Z; blue : Z }.

Record HSL (F : Type) := mkHSL { hue : F; saturation : F; lightness : F }.
Arguments mkHSL {F} _ _ _.
Arguments hue {F} _.
Arguments saturation {F} _.
Arguments lightness {F} _.

Record Color (F : Type) := mkColor {
  rgb : RGB;
  hls : HSL F;
  name : string;
  xterm : Z
}.
Arguments mkColor {F} _ _ _ _.
Arguments rgb {F} _.
Arguments hls {F} _.
Arguments name {F} _.
Arguments xterm {F} _.

#[global] Instance RGB_eq_dec : EqDecision RGB.
Proof. solve_decision. Defined.

#[global] Instance RGB_countable : Countable RGB.
Proof.
  refine (inj_countable' (fun c => (red c, green c, blue c))
            (fun t => mkRGB t.1.1 t.1.2 t.2) _).
  intros []. reflexivity.
Defined.

#[global] Instance HSL_eq_dec `{EqDecision F} : EqDecision (HSL F).
Proof. solve_decision. Defined.

#[global] Instance HSL_countable `{Countable F} : Countable (HSL F).
Proof.
  refine (inj_countable' (fun c => (hue c, saturation c, lightness c))
            (fun t => mkHSL t.1.1 t.1.2 t.2) _).
  intros []. reflexivity.
Defined.

(** The class-level indices of [Colors].  A [defaultdict(list)] is a map
    whose missing keys read as the empty list. *)
Record Colors (F : Type) `{Countable F} := mkColors {
  by_name : gmap string (list (Color F));
  by_lowername : gmap string (list (Color F));
  by_hex : gmap string (list (Color F));
  by_rgb : gmap RGB (list (Color F));
  by_hls : gmap (HSL F) (list (Color F));
  by_xterm : gmap Z (Color F)
}.
Arguments mkColors {F _ _} _ _ _ _ _ _.
Arguments by_name {F _ _} _.
Arguments by_lowername {F _ _} _.
Arguments by_hex {F _ _} _.
Arguments by_rgb {F _ _} _.
Arguments by_hls {F _ _} _.
Arguments by_xterm {F _ _} _.

(** [d[k]] on a [defaultdict(list)]. *)
Definition entries `{Countable K} {V} (d : gmap K (list V)) (k : K) : list V :=
  default [] (d !! k).

(** [d[k].append(v)] on a [defaultdict(list)]. *)
Definition append_to `{Countable K} {V} (k : K) (v : V) (d : gmap K (list V))
    : gmap K (list V) :=
  <[k := (entries d k ++ [v])%list]> d.

Module Colors.
Section Colors.
Context {F : Type} `{Countable F}.

Definition empty : Colors F := mkColors ∅ ∅ ∅ ∅ ∅ ∅.

Definition register (cls : Colors F) (rgb : RGB) (hls : HSL F) (name : string)
    (xterm : Z) : Colors F * Color F :=
  let color := mkColor rgb hls name xterm in
  let cls := mkColors (append_to name color (by_name cls))
               (by_lowername cls) (by_hex cls) (by_rgb cls) (by_hls cls)
               (by_xterm cls) in
  let cls := mkColors (by_name cls)
               (append_to (lower name) color (by_lowername cls))
               (by_hex cls) (by_rgb cls) (by_hls cls) (by_xterm cls) in
  let cls := mkColors (by_name cls) (by_lowername cls) (by_hex cls)
               (append_to rgb color (by_rgb cls)) (by_hls cls) (by_xterm cls) in
  let cls := mkColors (by_name cls) (by_lowername cls) (by_hex cls)
               (by_rgb cls) (append_to hls color (by_hls cls)) (by_xterm cls) in
  let cls := mkColors (by_name cls) (by_lowername cls) (by_hex cls)
               (by_rgb cls) (by_hls cls) (<[xterm := color]> (by_xterm cls)) in
  (cls, color).

End Colors.

Section Interpolate.
Context {F : Type} `{PyFloat F}.

(** One rgb channel: [int(c1 + (c2 - c1) * value)]. *)
Definition channel (c1 c2 : Z) (value : F) : result Z :=
  trunc (fadd (of_int c1) (fmul (of_int (c2 - c1)) value)).

(** One hls channel: [c1 + (c2 - c1) * value]. *)
Definition blend (c1 c2 : F) (value : F) : F :=
  fadd c1 (fmul (fsub c2 c1) value).

Definition interpolate (color1 color2 : Color F) (value : F)
    : result (Color F) :=
  if fleb value (of_int 0) then Ok color1
  else if fgeb value (of_int 1) then Ok color2
  else
    let '(mkRGB r1 g1 b1) := rgb color1 in
    let '(mkRGB r2 g2 b2) := rgb color2 in
    r ← channel r1 r2 value;
    g ← channel g1 g2 value;
    b ← channel b1 b2 value;
    let rgb := mkRGB r g b in
    let '(mkHSL h1 s1 l1) := hls color1 in
    let '(mkHSL h2 s2 l2) := hls color2 in
    let h := blend h1 h2 value in
    let s := blend s1 s2 value in
    let l := blend l1 l2 value in
    let hsl := mkHSL h s l in
    let name := if fltb value (lit 1 2) then name color1 else name color2 in
    let xterm := if fltb value (lit 1 2) then xterm color1 else xterm color2 in
    Ok (mkColor rgb hsl name xterm).

End Interpolate.
End Colors.

Record ColorGradient (F : Type) := mkColorGradient {
  colors : list (Color F);
  interpolate : Color F -> Color F -> F -> result (Color F)
}.
Arguments mkColorGradient {F} _ _.
Arguments colors {F} _.
Arguments interpolate {F} _.

Module ColorGradient.
Section ColorGradient.
Context {F : Type} `{PyFloat F}.

(** [assert colors] rejects the empty tuple. *)
Definition __init__ (colors : list (Color F))
    (interpolate : Color F -> Color F -> F -> result (Color F))
    : result (ColorGradient F) :=
  match colors with
  | [] => Raise AssertionError
  | _ => Ok (mkColorGradient colors interpolate)
  end.

Definition get_color (self : ColorGradient F) (value : F) : result (Color F) :=
  if fleb value (of_int 0) then getitem (colors self) 0
  else if fgeb value (of_int 1) then getitem (colors self) (-1)
  else
    segment_size ← fdiv (of_int 1) (of_int (Z.of_nat (length (colors self)) - 1));
    segment ← fdiv value segment_size ≫= trunc;
    segment_value ←
      fdiv (fsub value (fmul (of_int segment) segment_size)) segment_size;
    color1 ← getitem (colors self) segment;
    color2 ← getitem (colors self) (segment + 1);
    interpolate self color1 color2 segment_value.

Definition __call__ (self : ColorGradient F) (value : F) : result (Color F) :=
  get_color self value.

End ColorGradient.
End ColorGradient.

(** * progressbar/bar.py *)

(** [max_value: NumberT | Type[base.UnknownLength] | None].
    Modelled from the spec: the "unknown-length" sentinel is declared in
    [progressbar/base.py], which is not among the sources.  As the
    annotation above and the assignment in [__call__] have it, the sentinel
    is the class object [base.UnknownLength] itself; it is falsy. *)
Inductive max_value_t (F : Type) :=
  | MaxNone
  | MaxUnknownLength
  | MaxNumber (n : F).
Arguments MaxNone {F}.
Arguments MaxUnknownLength {F}.
Arguments MaxNumber {F} n.

(** What the wrapped iterator does at each retrieval. *)
Inductive step (A : Type) :=
  | Yield (a : A)
  | Throw (e : exception).
Arguments Yield {A} a.
Arguments Throw {A} e.

(** The external sequence handed to [__call__]: one with a length, or a
    generator without. *)
Inductive iterable (A : Type) :=
  | Sequence (items : list A)
  | Generator (steps : list (step A)).
Arguments Sequence {A} items.
Arguments Generator {A} steps.

Definition len {A} (it : iterable A) : result Z :=
  match it with
  | Sequence items => Ok (Z.of_nat (length items))
  | Generator _ => Raise TypeError
  end.

Definition iter {A} (it : iterable A) : list (step A) :=
  match it with
  | Sequence items => map Yield items
  | Generator steps => steps
  end.

(** [next(it)]: an exhausted iterator raises StopIteration; one that raised
    is finished. *)
Definition next {A} (it : list (step A)) : list (step A) * result A :=
  match it with
  | [] => ([], Raise StopIteration)
  | Yield a :: rest => (rest, Ok a)
  | Throw e :: _ => ([], Raise e)
  end.

(** Invocations of the three engine methods, oldest first.  The log is
    ghost state: it records that a method was entered. *)
Inductive call (F : Type) :=
  | CallStart
  | CallUpdate (value : option F) (force : bool)
  | CallFinish (dirty : bool).
Arguments CallStart {F}.
Arguments CallUpdate {F} value force.
Arguments CallFinish {F} dirty.

(** The attributes of a bar that the engine reads or writes.  [fd] is the
    text written to the output stream so far, one entry per write; the
    stream and terminal set-up of the mixins lives in modules outside the
    sources and is not modelled. *)
Record ProgressBar (F A : Type) := mkProgressBar {
  _started : bool;
  _finished : bool;
  _last_update_time : option F;
  min_value : F;
  max_value : max_value_t F;
  max_error : bool;
  value : F;
  previous_value : option F;
  num_intervals : Z;
  next_update : Z;
  start_time : option F;
  end_time : option F;
  initial_start_time : option F;
  poll_interval : option F;
  min_poll_interval : F;
  _iterable : option (list (step A));
  fd : list string;
  calls : list (call F)
}.
Arguments mkProgressBar {F A}.
Arguments _started {F A} _.
Arguments _finished {F A} _.
Arguments _last_update_time {F A} _.
Arguments min_value {F A} _.
Arguments max_value {F A} _.
Arguments max_error {F A} _.
Arguments value {F A} _.
Arguments previous_value {F A} _.
Arguments num_intervals {F A} _.
Arguments next_update {F A} _.
Arguments start_time {F A} _.
Arguments end_time {F A} _.
Arguments initial_start_time {F A} _.
Arguments poll_interval {F A} _.
Arguments min_poll_interval {F A} _.
Arguments _iterable {F A} _.
Arguments fd {F A} _.
Arguments calls {F A} _.

(** The arguments of [ProgressBar.__init__] that the engine uses, the
    deprecated keywords [maxval], [poll] and [start_time] of [**kwargs], and
    the environment variable PROGRESSBAR_MINIMUM_UPDATE_INTERVAL. *)
Record init_args (F : Type) := mkArgs {
  arg_min_value : F;
  arg_max_value : max_value_t F;
  arg_initial_value : F;
  arg_poll_interval : option F;
  arg_max_error : bool;
  arg_min_poll_interval : option F;
  kw_maxval : max_value_t F;
  kw_poll : option F;
  kw_start_time : option F;
  env_minimum_update_interval : option F
}.
Arguments mkArgs {F}.
Arguments arg_min_value {F} _.
Arguments arg_max_value {F} _.
Arguments arg_initial_value {F} _.
Arguments arg_poll_interval {F} _.
Arguments arg_max_error {F} _.
Arguments arg_min_poll_interval {F} _.
Arguments kw_maxval {F} _.
Arguments kw_poll {F} _.
Arguments kw_start_time {F} _.
Arguments env_minimum_update_interval {F} _.

(** What a retrieval returns: an item of the wrapped sequence, or the bar's
    own value when nothing is wrapped. *)
Inductive retrieved (F A : Type) :=
  | Item (a : A)
  | OwnValue (v : F).
Arguments Item {F A} a.
Arguments OwnValue {F A} v.

Module ProgressBar.
Section ProgressBar.
Context {F A : Type} `{PyFloat F}.

Local Abbreviation bar := (ProgressBar F A).

(** The signature's defaults. *)
Definition default_args : init_args F :=
  mkArgs (of_int 0) MaxNone (of_int 0) None true None MaxNone None None None.

Definition _MINIMUM_UPDATE_INTERVAL : F := lit 1 20.

Definition max_truthy (m : max_value_t F) : bool :=
  match m with
  | MaxNone => false
  | MaxUnknownLength => false
  | MaxNumber n => ftruthy n
  end.

Definition opt_truthy (o : option F) : bool :=
  match o with
  | None => false
  | Some x => ftruthy x
  end.

Definition is_None (m : max_value_t F) : bool :=
  match m with MaxNone => true | _ => false end.

(** [isinstance(m, base.UnknownLength)] holds of objects made by calling
    the class.  None of the values [max_value] takes is one: a number is
    not, and the sentinel is the class object, whose type is its
    metaclass. *)
Definition isinstance_UnknownLength (m : max_value_t F) : bool :=
  match m with
  | MaxNone => false
  | MaxUnknownLength => false
  | MaxNumber _ => false
  end.

(** [min_value > max_value], reached only for a truthy [max_value]. *)
Definition min_exceeds (min_value : F) (m : max_value_t F) : bool :=
  match m with
  | MaxNumber n => fgtb min_value n
  | _ => false
  end.

Definition set_calls (self : bar) (cs : list (call F)) : bar :=
  mkProgressBar (_started self) (_finished self) (_last_update_time self)
    (min_value self) (max_value self) (max_error self) (value self)
    (previous_value self) (num_intervals self) (next_update self)
    (start_time self) (end_time self) (initial_start_time self)
    (poll_interval self) (min_poll_interval self) (_iterable self)
    (fd self) cs.

Definition set_max_value (self : bar) (m : max_value_t F) : bar :=
  mkProgressBar (_started self) (_finished self) (_last_update_time self)
    (min_value self) m (max_error self) (value self)
    (previous_value self) (num_intervals self) (next_update self)
    (start_time self) (end_time self) (initial_start_time self)
    (poll_interval self) (min_poll_interval self) (_iterable self)
    (fd self) (calls self).

Definition set_iterable (self : bar) (it : option (list (step A))) : bar :=
  mkProgressBar (_started self) (_finished self) (_last_update_time self)
    (min_value self) (max_value self) (max_error self) (value self)
    (previous_value self) (num_intervals self) (next_update self)
    (start_time self) (end_time self) (initial_start_time self)
    (poll_interval self) (min_poll_interval self) it
    (fd self) (calls self).

(** [init]: back to the unstarted state. *)
Definition init (self : bar) : bar :=
  mkProgressBar false false None
    (min_value self) (max_value self) (max_error self) (min_value self)
    None 0 0
    None None (initial_start_time self)
    (poll_interval self) (min_poll_interval self) (_iterable self)
    (fd self) (calls self).

(** The initialisers of the mixins come first in the source; they set up
    the stream, the terminal width and the redirection from modules outside
    the sources and touch none of the attributes below.
    Modelled from the spec: [utils.deltas_to_seconds] (progressbar/utils.py
    is not among the sources) turns "raw seconds or duration objects" into
    seconds; intervals are raw seconds here, which it returns as they are,
    and None gives its default None. *)
Definition __init__ (a : init_args F) : result bar :=
  let given_max :=
    if negb (max_truthy (arg_max_value a)) && negb (is_None (kw_maxval a))
    then kw_maxval a else arg_max_value a in
  let given_poll :=
    if negb (opt_truthy (arg_poll_interval a)) && opt_truthy (kw_poll a)
    then kw_poll a else arg_poll_interval a in
  if max_truthy given_max && min_exceeds (arg_min_value a) given_max
  then Raise ValueError
  else
    let self :=
      mkProgressBar false false None
        (arg_min_value a) given_max (arg_max_error a) (arg_initial_value a)
        None 0 0
        None None (kw_start_time a)
        None (of_int 0) None
        [] [] in
    let self := init self in
    let given_min_poll :=
      max3
        (if opt_truthy (arg_min_poll_interval a)
         then default _MINIMUM_UPDATE_INTERVAL (arg_min_poll_interval a)
         else _MINIMUM_UPDATE_INTERVAL)
        _MINIMUM_UPDATE_INTERVAL
        (default (of_int 0) (env_minimum_update_interval a)) in
    Ok (mkProgressBar (_started self) (_finished self) (_last_update_time self)
          (min_value self) (max_value self) (max_error self) (value self)
          (previous_value self) (num_intervals self) (next_update self)
          (start_time self) (end_time self) (initial_start_time self)
          given_poll given_min_poll (_iterable self)
          (fd self) (calls self)).

(** [max_value - min_value]; a class object has no subtraction. *)
Definition total_range_of (m : max_value_t F) (min_value : F) : result F :=
  match m with
  | MaxNumber n => Ok (fsub n min_value)
  | _ => Raise TypeError
  end.

Definition percentage (self : bar) : result (option F) :=
  if is_None (max_value self) || isinstance_UnknownLength (max_value self)
  then Ok None
  else
    total_range ← total_range_of (max_value self) (min_value self);
    if feqb total_range (of_int 0) then Ok (Some (of_int 100))
    else
      let current_pos := fsub (value self) (min_value self) in
      ratio ← fdiv current_pos total_range;
      Ok (Some (fmul ratio (of_int 100))).

Definition __call__ (self : bar) (it : iterable A) (given_max : max_value_t F)
    : bar * result unit :=
  let '(self, r) :=
    if negb (is_None given_max) then (set_max_value self given_max, Ok tt)
    else if is_None (max_value self) then
      match len it with
      | Ok n => (set_max_value self (MaxNumber (of_int n)), Ok tt)
      | Raise TypeError => (set_max_value self MaxUnknownLength, Ok tt)
      | Raise e => (self, Raise e)
      end
    else (self, Ok tt) in
  match r with
  | Ok _ => (set_iterable self (Some (iter it)), Ok tt)
  | Raise e => (self, Raise e)
  end.

Definition log (c : call F) (self : bar) : bar :=
  set_calls self (calls self ++ [c])%list.


Definition update (self : bar) (value : option F) (force : bool)
    : bar * result unit :=
  (log (CallUpdate value force) self, Ok tt).

Definition start (self : bar) : bar * result unit :=
  (log CallStart self, Ok tt).

Definition finish (self : bar) (dirty : bool) : bar * result unit :=
  (log (CallFinish dirty) self, Ok tt).

(** The [except] clauses of [__next__]: finish, then re-raise. *)
Definition on_exception (self : bar) (e : exception)
    : bar * result (retrieved F A) :=
  match e with
  | StopIteration =>
      let '(self, r) := finish self false in
      (self, match r with Ok _ => Raise StopIteration | Raise e' => Raise e' end)
  | GeneratorExit =>
      let '(self, r) := finish self true in
      (self, match r with Ok _ => Raise GeneratorExit | Raise e' => Raise e' end)
  | _ => (self, Raise e)
  end.

Definition __next__ (self : bar) : bar * result (retrieved F A) :=
  let '(self, got) :=
    match _iterable self with
    | None => (self, Ok (OwnValue (value self)))
    | Some it =>
        let '(it, r) := next it in
        (set_iterable self (Some it),
         match r with Ok a => Ok (Item a) | Raise e => Raise e end)
    end in
  match got with
  | Raise e => on_exception self e
  | Ok v =>
      let '(self, r) :=
        match start_time self with
        | None => start self
        | Some _ => update self (Some (fadd (value self) (of_int 1))) false
        end in
      match r with
      | Raise e => on_exception self e
      | Ok _ => (self, Ok v)
      end
  end.

(** [for x in self: pass]: retrieve until StopIteration.  [None] when the
    fuel runs out first. *)
Fixpoint for_loop (fuel : nat) (self : bar)
    : option (bar * list (retrieved F A) * result unit) :=
  match fuel with
  | O => None
  | S fuel =>
      match __next__ self with
      | (self, Ok v) =>
          match for_loop fuel self with
          | Some (self, vs, r) => Some (self, v :: vs, r)
          | None => None
          end
      | (self, Raise StopIteration) => Some (self, [], Ok tt)
      | (self, Raise e) => Some (self, [], Raise e)
      end
  end.

Definition __exit__ (self : bar) (exc_type : option exception)
    : bar * result unit :=
  finish self (match exc_type with Some _ => true | None => false end).

End ProgressBar.
End ProgressBar.

Module ProgressBarMixinBase.
Section ProgressBarMixinBase.
Context {F A : Type}.

(** [self.finish] is whatever the concrete class defines. *)
Variable finish : ProgressBar F A -> ProgressBar F A * result unit.

Definition __del__ (self : ProgressBar F A) : ProgressBar F A * result unit :=
  if negb (_finished self) && _started self then
    let '(self, r) := finish self in
    match r with
    | Raise AttributeError => (self, Ok tt)
    | _ => (self, r)
    end
  else (self, Ok tt).

End ProgressBarMixinBase.
End ProgressBarMixinBase.

(** * progressbar/env.py *)

(** The characters [str.strip] removes, on the ASCII range. *)
Definition is_space (c : ascii) : bool :=
  let n := nat_of_ascii c in
  ((9 <=? n)%nat && (n <=? 13)%nat) || ((28 <=? n)%nat && (n <=? 32)%nat).

Fixpoint lstrip (s : string) : string :=
  match s with
  | EmptyString => EmptyString
  | String c s' => if is_space c then lstrip s' else s
  end.

Definition reverse_string (s : string) : string :=
  string_of_list_ascii (rev (list_ascii_of_string s)).

Definition rstrip (s : string) : string :=
  reverse_string (lstrip (reverse_string s)).

Definition strip (s : string) : string := lstrip (rstrip s).

(** [needle in hay] *)
Fixpoint contains (needle hay : string) : bool :=
  String.prefix needle hay ||
  match hay with
  | EmptyString => false
  | String _ hay' => contains needle hay'
  end.

(** A pattern without repetition, and the finite set of words it matches. *)
Inductive regex :=
  | Lit (s : string)
  | Class (cs : list ascii)
  | Cat (r1 r2 : regex)
  | Alt (r1 r2 : regex)
  | Opt (r : regex).

Fixpoint words (r : regex) : list string :=
  match r with
  | Lit s => [s]
  | Class cs => map (fun c => String c EmptyString) cs
  | Cat r1 r2 =>
      flat_map (fun w1 => map (fun w2 => w1 ++ w2) (words r2)) (words r1)
  | Alt r1 r2 => (words r1 ++ words r2)%list
  | Opt r => (words r ++ [EmptyString])%list
  end.

(** [re.compile('^(' + r + ')', re.IGNORECASE).match(s)] for a pattern in
    lower case, on the ASCII range: some word is a prefix of [s] with its
    letters lowered. *)
Definition re_match_ignorecase (r : regex) (s : string) : bool :=
  existsb (fun w => String.prefix w (lower s)) (words r).

Module env.

(** [os.environ] *)
Local Abbreviation environ := (gmap string string).

Definition env_flag (environ : environ) (name : string) (default : option bool)
    : option bool :=
  match environ !! name with
  | None => default
  | Some value =>
      let value := strip (lower value) in
      if existsb (String.eqb value) ["y"; "yes"; "1"; "true"; "on"] then Some true
      else if existsb (String.eqb value) ["n"; "no"; "0"; "false"; "off"]
      then Some false
      else default
  end.

Inductive ColorSupport :=
  | NONE
  | XTERM
  | XTERM_256
  | XTERM_TRUECOLOR
  | WINDOWS.

(** The value of each member of the IntEnum. *)
Definition int_value (c : ColorSupport) : Z :=
  match c with
  | NONE => 0
  | XTERM => 16
  | XTERM_256 => 256
  | XTERM_TRUECOLOR => 16777216
  | WINDOWS => 8
  end.

Definition nonempty (o : option string) : bool :=
  match o with
  | Some (String _ _) => true
  | _ => false
  end.

(** The module constant JUPYTER, for the environment at import time. *)
Definition JUPYTER (environ : environ) : bool :=
  nonempty (environ !! "JUPYTER_COLUMNS") ||
  nonempty (environ !! "JUPYTER_LINES") ||
  nonempty (environ !! "JPY_PARENT_PID").

(** One round of the loop of [from_env]: the level a value selects. *)
Definition level_of (value : string) : option ColorSupport :=
  if contains "24bit" value || contains "truecolor" value then Some XTERM_TRUECOLOR
  else if contains "256" value then Some XTERM_256
  else if contains "xterm" value then Some XTERM
  else None.

Fixpoint first_level (values : list string) : ColorSupport :=
  match values with
  | [] => NONE
  | value :: values' =>
      match level_of value with
      | Some c => c
      | None => first_level values'
      end
  end.

Definition from_env (environ : environ) : ColorSupport :=
  if JUPYTER environ then XTERM_TRUECOLOR
  else
    let term := lower (default "" (environ !! "TERM")) in
    let colorterm := lower (default "" (environ !! "COLORTERM")) in
    let color := lower (default "" (environ !! "COLOR")) in
    first_level [term; colorterm; color].

(** The module constant COLOR_SUPPORT. *)
Definition COLOR_SUPPORT (environ : environ) : ColorSupport := from_env environ.

Definition ANSI_TERMS : list regex :=
  [ Cat (Alt (Class ["x"%char; "e"%char]) (Lit "bv")) (Lit "term");
    Cat (Opt (Lit "sco")) (Lit "ansi");
    Lit "cygwin"; Lit "konsole"; Lit "linux"; Lit "rxvt"; Lit "screen";
    Lit "tmux";
    Cat (Lit "vt")
      (Alt (Cat (Lit "10") (Class ["0"%char; "2"%char]))
         (Alt (Lit "220") (Lit "320"))) ].

(** ['|'.join(ANSI_TERMS)] *)
Definition ANSI_TERM_RE : regex :=
  match ANSI_TERMS with
  | [] => Lit EmptyString
  | r :: rs => fold_left Alt rs r
  end.

(** [fd.isatty()] is given by its outcome; AttributeError stands for a
    stream without the method. *)
Definition is_terminal (isatty : result bool) (is_terminal : option bool)
    : result bool :=
  match is_terminal with
  | Some answer => Ok answer
  | None =>
      match isatty with
      | Ok answer => Ok answer
      | Raise AttributeError => Ok false
      | Raise ValueError => Ok false
      | Raise e => Raise e
      end
  end.

Definition is_ansi_terminal (environ : environ) (isatty : result bool)
    : result bool :=
  terminal ← is_terminal isatty None;
  if negb terminal then Ok false
  else
    let term := lower (default "" (environ !! "TERM")) in
    Ok (re_match_ignorecase ANSI_TERM_RE term).

End env.

(** * progressbar/bar.py, the mixins *)

(** The [enable_colors] argument: None, a bool, a member of ColorSupport,
    or anything else. *)
Inductive enable_colors_arg :=
  | ColorsAuto
  | ColorsBool (b : bool)
  | ColorsLevel (c : env.ColorSupport)
  | ColorsOther.

(** A widget of the bar: a plain string, or an object with its [str()]. *)
Inductive widget :=
  | WidgetStr (s : string)
  | WidgetObject (str : string).

Module DefaultFdMixin.

(** [import_environ] is the environment when progressbar.env was imported
    (it fixed COLOR_SUPPORT), [environ] the one at the call. *)
Definition _determine_enable_colors (import_environ environ : gmap string string)
    (is_ansi_terminal : bool) (enable_colors : enable_colors_arg)
    : result env.ColorSupport :=
  match enable_colors with
  | ColorsAuto =>
      if default false (env.env_flag environ "PROGRESSBAR_ENABLE_COLORS" None)
      then Ok env.XTERM_256
      else if default false (env.env_flag environ "FORCE_COLOR" None)
      then Ok env.XTERM_256
      else if is_ansi_terminal then Ok (env.COLOR_SUPPORT import_environ)
      else Ok env.NONE
  | ColorsBool true => Ok env.XTERM_256
  | ColorsBool false => Ok env.NONE
  | ColorsLevel c => Ok c
  | ColorsOther => Raise ValueError
  end.

Definition str_of (w : widget) : string :=
  match w with
  | WidgetStr s => s
  | WidgetObject str => str
  end.

(** [' ' * n] *)
Definition spaces (n : Z) : string :=
  string_of_list_ascii (repeat " "%char (Z.to_nat n)).

Definition truthy_str (o : option string) : bool := env.nonempty o.

(** [custom_len] defaults to [utils.len_color], which is outside the
    sources; it is an argument here. *)
Definition _format_line (prefix suffix : option string) (widgets : list widget)
    (custom_len : string -> Z) (term_width : Z) (left_justify : bool) : string :=
  let result := [] in
  let result :=
    if truthy_str prefix then (result ++ [default "" prefix])%list else result in
  let result := (result ++ map str_of widgets)%list in
  let result :=
    if truthy_str suffix then (result ++ [default "" suffix])%list else result in
  let line := String.concat "" result in
  let width := custom_len line in
  let padding := Z.max 0 (term_width - width) in
  if negb (padding =? 0) && left_justify then line ++ spaces padding
  else if negb (padding =? 0) then spaces padding ++ line
  else line.

End DefaultFdMixin.

(** * progressbar/bar.py, the data of a bar *)

Module ProgressBarData.

(** [x // y] and [x % y] on floats, in exact arithmetic. *)
Definition floordiv (x y : Qc) : Qc := Qc_of_Z (Qfloor (x / y)%Qc).
Definition modulo (x y : Qc) : Qc := (x - y * floordiv x y)%Qc.

(** The dictionary [data] returns; the two entries for the user-defined
    variables, which the bar record does not carry, are left out. *)
Record t (A : Type) := mk {
  max_value_ : max_value_t Qc;
  start_time_ : option Qc;
  last_update_time_ : option Qc;
  end_time_ : option Qc;
  value_ : Qc;
  previous_value_ : option Qc;
  updates : Z;
  total_seconds_elapsed : Qc;
  seconds_elapsed : Z;
  minutes_elapsed : Z;
  hours_elapsed : Z;
  days_elapsed : Z;
  time_elapsed : Qc;
  percentage_ : option Qc
}.
Arguments mk {A}.
Arguments max_value_ {A} _.
Arguments start_time_ {A} _.
Arguments last_update_time_ {A} _.
Arguments end_time_ {A} _.
Arguments value_ {A} _.
Arguments previous_value_ {A} _.
Arguments updates {A} _.
Arguments total_seconds_elapsed {A} _.
Arguments seconds_elapsed {A} _.
Arguments minutes_elapsed {A} _.
Arguments hours_elapsed {A} _.
Arguments days_elapsed {A} _.
Arguments time_elapsed {A} _.
Arguments percentage_ {A} _.

(** [now] is what [datetime.now()] returns, in seconds. *)
Definition data {A} (self : ProgressBar Qc A) (now : Qc) : result (t A) :=
  let time_elapsed := (now - default now (start_time self))%Qc in
  let total_seconds := time_elapsed in
  percentage ← ProgressBar.percentage self;
  Ok (mk (max_value self) (start_time self) (_last_update_time self)
        (end_time self) (value self) (previous_value self)
        (num_intervals self)
        total_seconds
        (Qc_trunc (modulo total_seconds (Qc_of_Z 60)))
        (Qc_trunc (modulo (floordiv total_seconds (Qc_of_Z 60)) (Qc_of_Z 60)))
        (Qc_trunc (modulo (floordiv total_seconds (Qc_of_Z 3600)) (Qc_of_Z 24)))
        (Qc_trunc (floordiv total_seconds (Qc_of_Z (24 * 3600))))
        time_elapsed
        percentage).

End ProgressBarData.

(** * progressbar/terminal/base.py, the cursor position report *)

Definition endswith (s suffix : string) : bool :=
  String.prefix (reverse_string suffix) (reverse_string s).

(** [s.split(sep)] for a one-character separator: [cur] is the piece being
    read, reversed. *)
Fixpoint split_from (sep : ascii) (cur : list ascii) (s : string) : list string :=
  match s with
  | EmptyString => [string_of_list_ascii (rev cur)]
  | String c s' =>
      if Ascii.eqb c sep then string_of_list_ascii (rev cur) :: split_from sep [] s'
      else split_from sep (c :: cur) s'
  end.

Definition split (sep : ascii) (s : string) : list string := split_from sep [] s.

Definition is_digit (c : ascii) : bool :=
  let n := nat_of_ascii c in (48 <=? n)%nat && (n <=? 57)%nat.

(** [s.isdigit()], on the ASCII range. *)
Definition isdigit (s : string) : bool :=
  match s with
  | EmptyString => false
  | _ => forallb is_digit (list_ascii_of_string s)
  end.

(** [int(s)] for a string of digits. *)
Definition int_of_digits (s : string) : Z :=
  fold_left (fun acc c => 10 * acc + (Z.of_nat (nat_of_ascii c) - 48))
    (list_ascii_of_string s) 0.

(** [s[2:-1]] *)
Definition slice_2_m1 (s : string) : string :=
  String.substring 2 (String.length s - 3) s.

Module _CPR.

Inductive field :=
  | FieldInt (n : Z)
  | FieldStr (s : string).

(** What the call returns: the only field, or the tuple of fields. *)
Inductive report :=
  | Single (f : field)
  | Fields (fs : list field).

(** The loop around [getch()], whose results are [keys]: None when the
    keys run out with no 'R' read, where the source blocks. *)
Fixpoint read (keys : list (option string)) (res : string)
    : option (string * list (option string)) :=
  if endswith res "R" then Some (res, keys)
  else
    match keys with
    | [] => None
    | None :: keys' => read keys' res
    | Some char :: keys' => read keys' (res ++ char)
    end.

Definition parse (res : string) : report :=
  let res_list := split ";"%char (slice_2_m1 res) in
  let res_list :=
    map (fun item => if isdigit item then FieldInt (int_of_digits item)
                     else FieldStr item) res_list in
  match res_list with
  | [f] => Single f
  | _ => Fields res_list
  end.

(** [self] is the query string; the stream collects what is written. *)
Definition __call__ (self : string) (stream : list string)
    (keys : list (option string))
    : list string * option (report * list (option string)) :=
  let stream := (stream ++ [self])%list in
  match read keys EmptyString with
  | None => (stream, None)
  | Some (res, keys') => (stream, Some (parse res, keys'))
  end.

End _CPR.

(** One key press per character of a terminal's reply. *)
Definition keys_of (reply : string) : list (option string) :=
  map (fun c => Some (String c EmptyString)) (list_ascii_of_string reply).

(** * progressbar/terminal/base.py, the Windows palette *)

Module WindowsColors.

Inductive t :=
  | BLACK | BLUE | GREEN | CYAN | RED | MAGENTA | YELLOW | GREY
  | INTENSE_BLACK | INTENSE_BLUE | INTENSE_GREEN | INTENSE_CYAN | INTENSE_RED
  | INTENSE_MAGENTA | INTENSE_YELLOW | INTENSE_WHITE.

Definition value (c : t) : Z * Z * Z :=
  match c with
  | BLACK => (0, 0, 0)
  | BLUE => (0, 0, 128)
  | GREEN => (0, 128, 0)
  | CYAN => (0, 128, 128)
  | RED => (128, 0, 0)
  | MAGENTA => (128, 0, 128)
  | YELLOW => (128, 128, 0)
  | GREY => (192, 192, 192)
  | INTENSE_BLACK => (128, 128, 128)
  | INTENSE_BLUE => (0, 0, 255)
  | INTENSE_GREEN => (0, 255, 0)
  | INTENSE_CYAN => (0, 255, 255)
  | INTENSE_RED => (255, 0, 0)
  | INTENSE_MAGENTA => (255, 0, 255)
  | INTENSE_YELLOW => (255, 255, 0)
  | INTENSE_WHITE => (255, 255, 255)
  end.

(** The members in definition order, as iterating the Enum gives them. *)
Definition members : list t :=
  [ BLACK; BLUE; GREEN; CYAN; RED; MAGENTA; YELLOW; GREY;
    INTENSE_BLACK; INTENSE_BLUE; INTENSE_GREEN; INTENSE_CYAN; INTENSE_RED;
    INTENSE_MAGENTA; INTENSE_YELLOW; INTENSE_WHITE ].

(** The integer under the root of the distance. *)
Definition squared_distance (rgb1 rgb2 : Z * Z * Z) : Z :=
  let '(r1, g1, b1) := rgb1 in
  let '(r2, g2, b2) := rgb2 in
  (r1 - r2) ^ 2 + (g1 - g2) ^ 2 + (b1 - b2) ^ 2.

Section from_rgb.
Context {F : Type} `{PyFloat F}.

(** [float('inf')] and [n ** 0.5] for an int [n]. *)
Variable inf : F.
Variable pow_half : Z -> F.

(** The loop of [from_rgb] from a given state on. *)
Fixpoint closest_from (rgb : Z * Z * Z) (colors : list t)
    (min_distance : F) (closest_color : option t) : option t :=
  match colors with
  | [] => closest_color
  | color :: colors' =>
      let distance := pow_half (squared_distance rgb (value color)) in
      if fltb distance min_distance
      then closest_from rgb colors' distance (Some color)
      else closest_from rgb colors' min_distance closest_color
  end.

Definition from_rgb (rgb : Z * Z * Z) : option t :=
  closest_from rgb members inf None.

End from_rgb.

End WindowsColors.

(** [n ** 0.5] on binary64, with a correctly rounded root. *)
Definition binary64_pow_half (n : Z) : float := PrimFloat.sqrt (float_of_Z n).

(** * progressbar/algorithms.py *)

Module ExponentialMovingAverage.
Section ExponentialMovingAverage.
Context {F : Type} `{PyFloat F}.

Record t := mk { alpha : F; value : F }.

Definition __init__ (alpha : F) : t := mk alpha (of_int 0).

(** [elapsed] is accepted and not used. *)
Definition update (self : t) (new_value : F) (elapsed : F) : t * F :=
  let value :=
    fadd (fmul (alpha self) new_value)
         (fmul (fsub (of_int 1) (alpha self)) (value self)) in
  (mk (alpha self) value, value).

End ExponentialMovingAverage.
End ExponentialMovingAverage.

Module DoubleExponentialMovingAverage.
Section DoubleExponentialMovingAverage.
Context {F : Type} `{PyFloat F}.

Record t := mk { alpha : F; ema1 : F; ema2 : F }.

Definition __init__ (alpha : F) : t := mk alpha (of_int 0) (of_int 0).

Definition update (self : t) (new_value : F) (elapsed : F) : t * F :=
  let ema1 :=
    fadd (fmul (alpha self) new_value)
         (fmul (fsub (of_int 1) (alpha self)) (ema1 self)) in
  let ema2 :=
    fadd (fmul (alpha self) ema1)
         (fmul (fsub (of_int 1) (alpha self)) (ema2 self)) in
  (mk (alpha self) ema1 ema2, fsub (fmul (of_int 2) ema1) ema2).

End DoubleExponentialMovingAverage.
End DoubleExponentialMovingAverage.

(** * Concrete inputs *)

Definition red_color {F} `{PyFloat F} : Color F :=
  mkColor (mkRGB 255 0 0) (mkHSL (of_int 0) (of_int 100) (of_int 50)) "red" 9.
Definition lime_color {F} `{PyFloat F} : Color F :=
  mkColor (mkRGB 0 255 0) (mkHSL (of_int 120) (of_int 100) (of_int 50)) "lime" 10.
Definition blue_color {F} `{PyFloat F} : Color F :=
  mkColor (mkRGB 0 0 255) (mkHSL (of_int 240) (of_int 100) (of_int 50)) "blue" 12.
Definition white_color {F} `{PyFloat F} : Color F :=
  mkColor (mkRGB 255 255 255) (mkHSL (of_int 0) (of_int 0) (of_int 100)) "white" 15.

(** [ColorGradient(red, lime, blue, white)] with the default interpolation. *)
Definition four_stops {F} `{PyFloat F} : ColorGradient F :=
  mkColorGradient [red_color; lime_color; blue_color; white_color] Colors.interpolate.

(** Two colours registered under one name and one xterm code:
    [Colors.register(RGB(255, 0, 0), hls, 'Red', 9)] and then
    [Colors.register(RGB(128, 0, 0), hls, 'Red', 9)]. *)
Definition two_reds : Colors Qc :=
  let hls := mkHSL (of_int 0) (of_int 100) (of_int 50) in
  let cls := (Colors.register Colors.empty (mkRGB 255 0 0) hls "Red" 9).1 in
  (Colors.register cls (mkRGB 128 0 0) hls "Red" 9).1.

(** The largest binary64 float below 1, [0.9999999999999999] in Python. *)
Definition below_one : float := 0x1.fffffffffffffp-1%float.

(** [ProgressBar(max_value=10, min_poll_interval=0.1)] *)
Definition throttled_args {F} `{PyFloat F} : init_args F :=
  mkArgs (of_int 0) (MaxNumber (of_int 10)) (of_int 0) None true
    (Some (lit 1 10)) MaxNone None None None.



(** The bar a constructor call returns; the unstarted default bar stands in
    when the call raises. *)
Definition new_bar {F A} `{PyFloat F} (a : init_args F) : ProgressBar F A :=
  match ProgressBar.__init__ a with
  | Ok self => self
  | Raise _ =>
      mkProgressBar false false None (of_int 0) MaxNone true (of_int 0) None
        0 0 None None None None (of_int 0) None [] []
  end.

(** [bar(iterable)] *)
Definition wrap {F A} `{PyFloat F} (self : ProgressBar F A) (it : iterable A)
    : ProgressBar F A :=
  (ProgressBar.__call__ self it MaxNone).1.

(** A started, unfinished bar of a subclass whose [finish] raises
    ValueError. *)
Definition started_bar : ProgressBar float nat :=
  mkProgressBar true false None 0%float (MaxNumber 10%float) true 3%float None
    0 0 (Some 0%float) None None None ProgressBar._MINIMUM_UPDATE_INTERVAL None
    [] [].

(** The bar of the [percentage] doctest: the three attributes assigned
    there, everything else as constructed. *)
Definition doctest_bar (lo : Z) (hi : max_value_t float) (v : Z)
    : ProgressBar float nat :=
  mkProgressBar false false None (of_int lo) hi true (of_int v) None
    0 0 None None None None ProgressBar._MINIMUM_UPDATE_INTERVAL None [] [].

(** * Exact arithmetic

    Facts about the [Qc] instance of [PyFloat] and about indexing. *)

Section ExactArithmetic.
Local Open Scope Qc_scope.

Lemma Qc_feqb_spec (x y : Qc) : feqb x y = true <-> x = y.
Proof.
  simpl. rewrite Qeq_bool_iff. split.
  - apply Qc_is_canon.
  - intros ->. reflexivity.
Qed.

Lemma Qc_fleb_spec (x y : Qc) : fleb x y = true <-> x <= y.
Proof. simpl. apply Qle_bool_iff. Qed.

Lemma Qc_fleb_false (x y : Qc) : fleb x y = false <-> y < x.
Proof.
  simpl. rewrite <- not_true_iff_false, Qle_bool_iff. split.
  - apply Qnot_le_lt.
  - apply Qlt_not_le.
Qed.

Lemma Qc_fltb_spec (x y : Qc) : fltb x y = true <-> x < y.
Proof. simpl. rewrite negb_true_iff. apply Qc_fleb_false. Qed.

Lemma Qc_fdiv_nonzero (x y : Qc) : y <> 0 -> fdiv x y = Ok (x / y).
Proof.
  intros Hy. simpl.
  destruct (Qeq_bool y 0) eqn:E; [|reflexivity].
  exfalso. apply Hy. apply Qc_feqb_spec. exact E.
Qed.

Lemma Qc_trunc_of_Z z : Qc_trunc (Qc_of_Z z) = z.
Proof. unfold Qc_trunc, Qc_of_Z. simpl. apply Z.quot_1_r. Qed.

Lemma Qc_trunc_floor (q : Qc) :
  0 <= q ->
  (0 <= Qc_trunc q)%Z /\ Qc_of_Z (Qc_trunc q) <= q /\ q < Qc_of_Z (Qc_trunc q + 1).
Proof.
  intros Hq.
  assert (Hnum : (0 <= Qnum q)%Z).
  { unfold Qcle, Qle in Hq. simpl in Hq. lia. }
  assert (Hfl : Qc_trunc q = Qfloor q).
  { unfold Qc_trunc, Qfloor. destruct (this q) as [a b]. simpl in *.
    apply Z.quot_div_nonneg; lia. }
  rewrite Hfl. repeat split.
  - unfold Qfloor. destruct (this q) as [a b]. simpl in *.
    apply Z.div_pos; lia.
  - unfold Qcle. simpl. apply Qfloor_le.
  - unfold Qclt. simpl. apply Qlt_floor.
Qed.

Lemma getitem_nonneg {A} (l : list A) (i : Z) (a : A) :
  (0 <= i)%Z -> l !! Z.to_nat i = Some a -> getitem l i = Ok a.
Proof.
  intros Hi Hl. unfold getitem.
  pose proof (lookup_lt_Some _ _ _ Hl) as Hlt.
  destruct (Z.ltb_spec i 0); [lia|].
  destruct (Z.ltb_spec i 0); [lia|].
  destruct (Z.leb_spec (Z.of_nat (length l)) i); [lia|]. simpl.
  rewrite Hl. reflexivity.
Qed.

Lemma getitem_last {A} (l : list A) (a : A) :
  list.last l = Some a -> getitem l (-1) = Ok a.
Proof.
  intros Hl. rewrite last_lookup in Hl.
  pose proof (lookup_lt_Some _ _ _ Hl) as Hlt.
  unfold getitem. simpl.
  destruct (Z.ltb_spec (Z.of_nat (length l) + -1) 0); [lia|].
  destruct (Z.leb_spec (Z.of_nat (length l)) (Z.of_nat (length l) + -1)); [lia|].
  simpl.
  replace (Z.to_nat (Z.of_nat (length l) + -1)) with (Nat.pred (length l)) by lia.
  rewrite Hl. reflexivity.
Qed.

End ExactArithmetic.

(** * The ANSI encoder *)

Section Encoder.

(** An instance built by [CSI.__init__] has every attribute [__call__]
    reads, so the call renders the template. *)
Lemma csi_call_renders cls code defaults args :
  CSI.__call__ (CSI.__init__ cls code defaults) args =
  format (ESC ++ "[{args}{code}")
    [ ("args", String.concat ";"
                 (map pretty (match args with [] => defaults | _ => args end)));
      ("code", code) ].
Proof.
  unfold CSI.__call__, CSI.__init__, getattr; simpl.
  destruct cls; simpl; destruct args; reflexivity.
Qed.

(** Called without arguments, the builders with defaults give these. *)
Lemma csi_builders_defaults :
  map (fun b => CSI.__call__ b []) csi_builders =
  map (fun s => Ok (ESC ++ "[" ++ s))
    [ "1;1H"; "1A"; "1B"; "1C"; "1D"; "1E"; "1F"; "1G"; "0J"; "K"; "S"; "T" ].
Proof. reflexivity. Qed.

Lemma csi_noarg_builders_sequences :
  map CSINoArg.__call__ csi_noarg_builders =
  map (fun s => Ok (ESC ++ "[" ++ s))
    [ "0J"; "1J"; "2J"; "3J"; "0K"; "1K"; "2K"; "s"; "u"; "?25l"; "?25h" ].
Proof. reflexivity. Qed.

(** Explicit arguments replace the defaults. *)
Example cup_3_4 : CSI.__call__ CUP [3; 4] = Ok (ESC ++ "[3;4H").
Proof. reflexivity. Qed.

(** No class in the resolution order of an SGR instance binds
    [_start_template]. *)
Lemma start_template_unbound start_code end_code :
  getattr (SGR.__init__ start_code end_code) "_start_template" =
  Raise AttributeError.
Proof. reflexivity. Qed.

(** C9.  The cursor builder UP called with no arguments yields
    ESC [ 1 A, but an SGR builder applied to a text does not return a
    styled string: for every pair of codes, every text and every extra
    argument list the call raises AttributeError, because the attribute
    [_start_template] it reads is bound neither on the instance nor on
    SGR or CSI.  In particular [bold("progress")] raises. *)
Theorem sgr_call_raises_AttributeError :
  CSI.__call__ UP [] = Ok (ESC ++ "[1A") /\
  (forall start_code end_code text args,
     SGR.__call__ (SGR.__init__ start_code end_code) text args =
     Raise AttributeError) /\
  SGR.__call__ bold "progress" [] = Raise AttributeError /\
  Forall (fun b => SGR.__call__ b "progress" [] = Raise AttributeError)
    sgr_builders.
Proof.
  split; [reflexivity|]. split; [reflexivity|]. split; [reflexivity|].
  unfold sgr_builders. repeat constructor.
Qed.

End Encoder.

(** * The colour registry *)

Section Registry.
Context {F : Type} `{Countable F}.

Lemma entries_append_to `{Countable K} {V} (d : gmap K (list V)) k v :
  entries (append_to k v d) k = (entries d k ++ [v])%list.
Proof. unfold entries, append_to. rewrite lookup_insert_eq. reflexivity. Qed.

Lemma entries_append_to_ne `{Countable K} {V} (d : gmap K (list V)) k k' v :
  k <> k' -> entries (append_to k v d) k' = entries d k'.
Proof.
  intros Hne. unfold entries, append_to. rewrite lookup_insert_ne; auto.
Qed.

(** Appending never drops what a key already lists. *)
Lemma entries_append_to_prefix `{Countable K} {V} (d : gmap K (list V)) k k' v :
  exists more, entries (append_to k v d) k' = (entries d k' ++ more)%list.
Proof.
  destruct (decide (k = k')) as [->|Hne].
  - exists [v]. apply entries_append_to.
  - exists []. rewrite entries_append_to_ne by assumption.
    symmetry. apply app_nil_r.
Qed.

Variable cls : Colors F.
Variables (rgb1 : RGB) (hls1 : HSL F) (name1 : string) (xterm1 : Z).

Let registered := Colors.register cls rgb1 hls1 name1 xterm1.

Lemma register_returns : registered.2 = mkColor rgb1 hls1 name1 xterm1.
Proof. reflexivity. Qed.

Lemma register_by_name :
  entries (by_name registered.1) name1 =
  (entries (by_name cls) name1 ++ [registered.2])%list.
Proof. apply entries_append_to. Qed.

Lemma register_by_lowername :
  entries (by_lowername registered.1) (lower name1) =
  (entries (by_lowername cls) (lower name1) ++ [registered.2])%list.
Proof. apply entries_append_to. Qed.

Lemma register_by_rgb :
  entries (by_rgb registered.1) rgb1 =
  (entries (by_rgb cls) rgb1 ++ [registered.2])%list.
Proof. apply entries_append_to. Qed.

Lemma register_by_hls :
  entries (by_hls registered.1) hls1 =
  (entries (by_hls cls) hls1 ++ [registered.2])%list.
Proof. apply entries_append_to. Qed.

Lemma register_by_xterm :
  by_xterm registered.1 = <[xterm1 := registered.2]> (by_xterm cls).
Proof. reflexivity. Qed.

Lemma register_by_hex : by_hex registered.1 = by_hex cls.
Proof. reflexivity. Qed.

(** Keys other than the registered colour's keep their lists. *)
Lemma register_other_name k :
  k <> name1 -> entries (by_name registered.1) k = entries (by_name cls) k.
Proof. intros Hne. apply entries_append_to_ne. congruence. Qed.

End Registry.

Example register_two_reds :
  map rgb (entries (by_name two_reds) "Red") = [mkRGB 255 0 0; mkRGB 128 0 0] /\
  map rgb (entries (by_lowername two_reds) "red") =
    [mkRGB 255 0 0; mkRGB 128 0 0] /\
  map name (entries (by_rgb two_reds) (mkRGB 255 0 0)) = ["Red"] /\
  rgb <$> by_xterm two_reds !! 9 = Some (mkRGB 128 0 0) /\
  by_hex two_reds = ∅.
Proof. repeat split; vm_compute; reflexivity. Qed.

(** C10.  [Colors.register] appends the new colour to the lists under its
    name, its lower-cased name, its rgb and its hls, so a second
    registration under the same keys leaves the first colour in each list,
    followed by the second; [by_xterm] is a plain assignment, so after two
    registrations with one xterm code the code maps to the second colour
    only; [by_hex] is never touched. *)
Theorem register_appends_but_xterm_overwrites {F : Type} `{Countable F}
    (cls : Colors F) (rgb1 rgb2 : RGB) (hls1 hls2 : HSL F)
    (name1 name2 : string) (xterm1 : Z) :
  let (cls1, color1) := Colors.register cls rgb1 hls1 name1 xterm1 in
  let (cls2, color2) := Colors.register cls1 rgb2 hls2 name2 xterm1 in
  let (cls3, color3) := Colors.register cls1 rgb1 hls1 name1 xterm1 in
  color1 = mkColor rgb1 hls1 name1 xterm1 /\
  (* one registration *)
  entries (by_name cls1) name1 = (entries (by_name cls) name1 ++ [color1])%list /\
  entries (by_lowername cls1) (lower name1) =
    (entries (by_lowername cls) (lower name1) ++ [color1])%list /\
  entries (by_rgb cls1) rgb1 = (entries (by_rgb cls) rgb1 ++ [color1])%list /\
  entries (by_hls cls1) hls1 = (entries (by_hls cls) hls1 ++ [color1])%list /\
  by_xterm cls1 !! xterm1 = Some color1 /\
  by_hex cls1 = by_hex cls /\
  (* a second colour with the same xterm code *)
  by_xterm cls2 !! xterm1 = Some color2 /\
  color1 ∈ entries (by_name cls2) name1 /\
  color1 ∈ entries (by_lowername cls2) (lower name1) /\
  color1 ∈ entries (by_rgb cls2) rgb1 /\
  color1 ∈ entries (by_hls cls2) hls1 /\
  by_hex cls2 = by_hex cls /\
  (* the same colour registered twice *)
  entries (by_name cls3) name1 =
    (entries (by_name cls) name1 ++ [color1; color3])%list /\
  entries (by_lowername cls3) (lower name1) =
    (entries (by_lowername cls) (lower name1) ++ [color1; color3])%list /\
  entries (by_rgb cls3) rgb1 =
    (entries (by_rgb cls) rgb1 ++ [color1; color3])%list /\
  entries (by_hls cls3) hls1 =
    (entries (by_hls cls) hls1 ++ [color1; color3])%list.
Proof.
  pose proof (register_by_name cls rgb1 hls1 name1 xterm1) as Hn.
  pose proof (register_by_lowername cls rgb1 hls1 name1 xterm1) as Hl.
  pose proof (register_by_rgb cls rgb1 hls1 name1 xterm1) as Hr.
  pose proof (register_by_hls cls rgb1 hls1 name1 xterm1) as Hh.
  destruct (Colors.register cls rgb1 hls1 name1 xterm1) as [cls1 color1] eqn:E1.
  pose proof (register_by_name cls1 rgb1 hls1 name1 xterm1) as Hn3.
  pose proof (register_by_lowername cls1 rgb1 hls1 name1 xterm1) as Hl3.
  pose proof (register_by_rgb cls1 rgb1 hls1 name1 xterm1) as Hr3.
  pose proof (register_by_hls cls1 rgb1 hls1 name1 xterm1) as Hh3.
  destruct (Colors.register cls1 rgb2 hls2 name2 xterm1) as [cls2 color2] eqn:E2.
  destruct (Colors.register cls1 rgb1 hls1 name1 xterm1) as [cls3 color3] eqn:E3.
  simpl in Hn, Hl, Hr, Hh, Hn3, Hl3, Hr3, Hh3.
  assert (Hin : forall `{Countable K} (d : gmap K (list (Color F))) k k' v,
             color1 ∈ entries d k' -> color1 ∈ entries (append_to k v d) k').
  { intros K ? ? d k k' v Hc.
    destruct (entries_append_to_prefix d k k' v) as [more ->].
    apply elem_of_app. left. exact Hc. }
  assert (Hlast : forall (l : list (Color F)), color1 ∈ (l ++ [color1])%list).
  { intros l. apply elem_of_app. right. apply list_elem_of_singleton. reflexivity. }
  injection E1 as <- <-. injection E2 as <- <-. injection E3 as <- <-.
  simpl in *.
  repeat split; try assumption; try reflexivity.
  - apply lookup_insert_eq.
  - apply lookup_insert_eq.
  - apply Hin. rewrite Hn. apply Hlast.
  - apply Hin. rewrite Hl. apply Hlast.
  - apply Hin. rewrite Hr. apply Hlast.
  - apply Hin. rewrite Hh. apply Hlast.
  - rewrite Hn3, Hn, <- app_assoc. reflexivity.
  - rewrite Hl3, Hl, <- app_assoc. reflexivity.
  - rewrite Hr3, Hr, <- app_assoc. reflexivity.
  - rewrite Hh3, Hh, <- app_assoc. reflexivity.
Qed.

(** * The update engine *)

Section Engine.
Context {F A : Type} `{PyFloat F}.

Local Abbreviation bar := (ProgressBar F A).

(** [update] returns normally and leaves every attribute as it was. *)
Lemma update_inert (self : bar) v force :
  (ProgressBar.update self v force).2 = Ok tt /\
  fd (ProgressBar.update self v force).1 = fd self /\
  value (ProgressBar.update self v force).1 = value self /\
  max_value (ProgressBar.update self v force).1 = max_value self /\
  _last_update_time (ProgressBar.update self v force).1 = _last_update_time self /\
  num_intervals (ProgressBar.update self v force).1 = num_intervals self.
Proof. repeat split. Qed.

(** [start] sets neither [start_time] nor [_started]. *)
Lemma start_inert (self : bar) :
  (ProgressBar.start self).2 = Ok tt /\
  start_time (ProgressBar.start self).1 = start_time self /\
  _started (ProgressBar.start self).1 = _started self /\
  fd (ProgressBar.start self).1 = fd self /\
  _iterable (ProgressBar.start self).1 = _iterable self /\
  calls (ProgressBar.start self).1 = (calls self ++ [CallStart])%list.
Proof. repeat split. Qed.

(** A retrieval that finds an item while [start_time] is unset calls
    [start]. *)
Lemma next_item_unstarted (self : bar) a rest :
  _iterable self = Some (Yield a :: rest) ->
  start_time self = None ->
  exists self',
    ProgressBar.__next__ self = (self', Ok (Item a)) /\
    _iterable self' = Some rest /\
    start_time self' = None /\
    calls self' = (calls self ++ [CallStart])%list.
Proof.
  intros Hit Hst. unfold ProgressBar.__next__. rewrite Hit. simpl.
  rewrite Hst. simpl. eexists. repeat split. exact Hst.
Qed.


(** Exhaustion calls [finish()] and re-raises StopIteration. *)
Lemma next_exhausted (self : bar) :
  _iterable self = Some [] ->
  exists self',
    ProgressBar.__next__ self = (self', Raise StopIteration) /\
    start_time self' = start_time self /\
    calls self' = (calls self ++ [CallFinish false])%list.
Proof.
  intros Hit. unfold ProgressBar.__next__. rewrite Hit. simpl.
  eexists. repeat split.
Qed.


(** Iterating a wrapped sequence to its end returns every item; since
    [start] leaves [start_time] unset, each retrieval calls [start] and
    none calls [update]. *)
Lemma for_loop_sequence (items : list A) : forall self : bar,
  _iterable self = Some (map Yield items) ->
  start_time self = None ->
  exists self',
    ProgressBar.for_loop (S (length items)) self =
      Some (self', map Item items, Ok tt) /\
    calls self' =
      (calls self ++ repeat CallStart (length items) ++ [CallFinish false])%list.
Proof.
  induction items as [|a items IH]; intros self Hit Hst.
  - destruct (next_exhausted self Hit) as (self' & Hn & _ & Hc).
    exists self'. simpl. rewrite Hn. split; [reflexivity | exact Hc].
  - destruct (next_item_unstarted self a (map Yield items) Hit Hst)
      as (self1 & Hn & Hit1 & Hst1 & Hc1).
    destruct (IH self1 Hit1 Hst1) as (self' & Hloop & Hc).
    exists self'. split.
    + change (ProgressBar.for_loop (S (length (a :: items))) self)
        with (match ProgressBar.__next__ self with
              | (s, Ok v) =>
                  match ProgressBar.for_loop (S (length items)) s with
                  | Some (s', vs, r) => Some (s', v :: vs, r)
                  | None => None
                  end
              | (s, Raise StopIteration) => Some (s, [], Ok tt)
              | (s, Raise e) => Some (s, [], Raise e)
              end).
      rewrite Hn, Hloop. reflexivity.
    + rewrite Hc, Hc1, <- app_assoc. reflexivity.
Qed.

(** With the sentinel as [max_value] the subtraction raises. *)
Lemma percentage_unknown_length (self : bar) :
  ProgressBar.percentage (ProgressBar.set_max_value self MaxUnknownLength) =
  Raise TypeError.
Proof. reflexivity. Qed.

Lemma percentage_none (self : bar) :
  max_value self = MaxNone -> ProgressBar.percentage self = Ok None.
Proof. intros Hm. unfold ProgressBar.percentage. rewrite Hm. reflexivity. Qed.

(** Wrapping a generator stores the sentinel. *)
Lemma call_generator (self : bar) steps :
  max_value self = MaxNone ->
  max_value (ProgressBar.__call__ self (Generator steps) MaxNone).1 =
  MaxUnknownLength.
Proof.
  intros Hm. unfold ProgressBar.__call__. simpl. rewrite Hm. reflexivity.
Qed.

End Engine.

(** The doctest of [percentage], on binary64. *)
Example percentage_doctest :
  map ProgressBar.percentage
    [ doctest_bar 0 (MaxNumber 10%float) 0; doctest_bar 0 (MaxNumber 10%float) 1;
      doctest_bar 0 (MaxNumber 10%float) 10; doctest_bar (-10) (MaxNumber 10%float) 10;
      doctest_bar (-10) (MaxNumber 10%float) 0; doctest_bar (-10) (MaxNumber 10%float) 5;
      doctest_bar (-10) (MaxNumber 10%float) (-5); doctest_bar (-10) MaxNone (-5) ] =
  [ Ok (Some 0%float); Ok (Some 10%float); Ok (Some 100%float);
    Ok (Some 100%float); Ok (Some 50%float); Ok (Some 75%float);
    Ok (Some 25%float); Ok None ].
Proof. vm_compute. reflexivity. Qed.



(** Over a 3-item sequence every retrieval calls [start] and none calls
    [update]: the body of [start] is [pass] and [start_time] stays unset. *)
Example iteration_three_items :
  let bar0 : ProgressBar float nat := new_bar ProgressBar.default_args in
  exists done,
    ProgressBar.for_loop 4 (wrap bar0 (Sequence [7; 8; 9]%nat)) =
      Some (done, [Item 7%nat; Item 8%nat; Item 9%nat], Ok tt) /\
    calls done = [CallStart; CallStart; CallStart; CallFinish false].
Proof. eexists; split; vm_compute; reflexivity. Qed.






(** * Destruction *)

Section Destruction.
Context {F A : Type}.
Variable finish : ProgressBar F A -> ProgressBar F A * result unit.

(** A bar that was never started, or is finished, is left alone. *)
Lemma del_idle (self : ProgressBar F A) :
  _started self = false \/ _finished self = true ->
  ProgressBarMixinBase.__del__ finish self = (self, Ok tt).
Proof.
  unfold ProgressBarMixinBase.__del__.
  intros [-> | ->]; [rewrite andb_false_r|]; reflexivity.
Qed.

End Destruction.




(** * The engine in exact arithmetic *)

Section EngineExact.
Local Open Scope Qc_scope.

(** For a non-empty range the percentage is the scaled position, whatever
    the value. *)
Lemma percentage_formula {A} (self : ProgressBar Qc A) (hi : Qc) :
  max_value self = MaxNumber hi ->
  min_value self < hi ->
  ProgressBar.percentage self =
  Ok (Some ((value self - min_value self) / (hi - min_value self) * Qc_of_Z 100)).
Proof.
  intros Hm Hlt. unfold ProgressBar.percentage. rewrite Hm.
  cbn [ProgressBar.is_None ProgressBar.isinstance_UnknownLength orb
       ProgressBar.total_range_of mbind result_bind].
  change (fsub hi (min_value self)) with (hi - min_value self).
  change (of_int 0) with (Qc_of_Z 0). rewrite Z2Qc_inj_0.
  assert (Hne : hi - min_value self <> 0).
  { intros E. apply (Qclt_not_eq _ _ Hlt). symmetry.
    replace hi with (hi - min_value self + min_value self) by ring.
    rewrite E. ring. }
  destruct (feqb (hi - min_value self) 0) eqn:E.
  { apply Qc_feqb_spec in E. contradiction. }
  rewrite Qc_fdiv_nonzero by exact Hne. reflexivity.
Qed.

(** A zero-width range reports 100. *)
Lemma percentage_zero_range {A} (self : ProgressBar Qc A) :
  max_value self = MaxNumber (min_value self) ->
  ProgressBar.percentage self = Ok (Some (Qc_of_Z 100)).
Proof.
  intros Hm. unfold ProgressBar.percentage. rewrite Hm.
  cbn [ProgressBar.is_None ProgressBar.isinstance_UnknownLength orb
       ProgressBar.total_range_of mbind result_bind].
  change (fsub (min_value self) (min_value self))
    with (min_value self - min_value self).
  change (of_int 0) with (Qc_of_Z 0). rewrite Z2Qc_inj_0.
  rewrite (proj2 (Qc_feqb_spec (min_value self - min_value self) 0)) by ring.
  reflexivity.
Qed.


(** A non-zero maximum below the minimum is rejected. *)
Lemma init_rejects_inverted_range {A} (a : init_args Qc) (hi : Qc) :
  arg_max_value a = MaxNumber hi ->
  hi <> 0 ->
  hi < arg_min_value a ->
  ProgressBar.__init__ (A:=A) a = Raise ValueError.
Proof.
  intros Hm Hne Hlt. unfold ProgressBar.__init__. rewrite Hm.
  assert (Ht : ProgressBar.max_truthy (MaxNumber hi) = true).
  { unfold ProgressBar.max_truthy, ftruthy. apply negb_true_iff.
    apply not_true_iff_false. intros E. apply Qc_feqb_spec in E.
    apply Hne. rewrite E. apply Z2Qc_inj_0. }
  rewrite Ht. cbn [negb andb]. rewrite Ht. cbn [andb].
  unfold ProgressBar.min_exceeds, fgtb.
  rewrite (proj2 (Qc_fltb_spec hi (arg_min_value a))) by exact Hlt.
  reflexivity.
Qed.

(** A zero maximum is never compared with the minimum. *)
Lemma init_skips_zero_max {A} (a : init_args Qc) :
  arg_max_value a = MaxNumber 0 ->
  kw_maxval a = MaxNone ->
  exists self : ProgressBar Qc A,
    ProgressBar.__init__ a = Ok self /\
    min_value self = arg_min_value a /\ max_value self = MaxNumber 0.
Proof.
  intros Hm Hk. unfold ProgressBar.__init__. rewrite Hm, Hk.
  assert (Ht : ProgressBar.max_truthy (MaxNumber (Q2Qc 0)) = false).
  { unfold ProgressBar.max_truthy, ftruthy. apply negb_false_iff.
    apply Qc_feqb_spec. symmetry. apply Z2Qc_inj_0. }
  rewrite Ht. cbn [negb andb ProgressBar.is_None]. rewrite Ht. cbn [andb].
  eexists. repeat split.
Qed.

End EngineExact.

(** * The colour model in exact arithmetic *)

Section ColorsExact.
Local Open Scope Qc_scope.









Section GradientExact.
Variable cs : list (Color Qc).
Variable interp : Color Qc -> Color Qc -> Qc -> result (Color Qc).
Let g := mkColorGradient cs interp.
Let n := (Z.of_nat (length cs) - 1)%Z.
Let w := 1 / Qc_of_Z n.

Lemma get_color_low t c : t <= 0 -> cs !! 0%nat = Some c -> ColorGradient.get_color g t = Ok c.
Proof.
  intros Ht Hc. unfold ColorGradient.get_color.
  change (of_int 0) with (Qc_of_Z 0). rewrite Z2Qc_inj_0.
  rewrite (proj2 (Qc_fleb_spec t 0)) by exact Ht.
  apply getitem_nonneg; [lia|exact Hc].
Qed.

Lemma get_color_high t c : 1 <= t -> list.last cs = Some c -> ColorGradient.get_color g t = Ok c.
Proof.
  intros Ht Hc. unfold ColorGradient.get_color.
  change (of_int 0) with (Qc_of_Z 0). change (of_int 1) with (Qc_of_Z 1).
  rewrite Z2Qc_inj_0, Z2Qc_inj_1.
  assert (H0 : 0 < t). { eapply Qclt_le_trans; [|exact Ht]. reflexivity. }
  rewrite (proj2 (Qc_fleb_false t 0)) by exact H0.
  unfold fgeb. rewrite (proj2 (Qc_fleb_spec 1 t)) by exact Ht.
  apply getitem_last. exact Hc.
Qed.

Lemma get_color_inside t :
  (2 <= length cs)%nat -> 0 < t -> t < 1 ->
  exists (k : Z) (c1 c2 : Color Qc) (sv : Qc),
    (0 <= k < n)%Z /\
    cs !! Z.to_nat k = Some c1 /\
    cs !! Z.to_nat (k + 1) = Some c2 /\
    Qc_of_Z k * w <= t /\ t < Qc_of_Z (k + 1) * w /\
    sv = (t - Qc_of_Z k * w) / w /\
    0 <= sv /\ sv < 1 /\
    ColorGradient.get_color g t = interp c1 c2 sv.
Proof.
  intros Hlen Ht0 Ht1.
  assert (Hn : (1 <= n)%Z) by (unfold n; lia).
  assert (HN : 0 < Qc_of_Z n).
  { rewrite <- Z2Qc_inj_0. apply (proj1 (Z2Qc_inj_lt 0 n)). lia. }
  assert (HN0 : Qc_of_Z n <> 0).
  { apply not_eq_sym, Qclt_not_eq, HN. }
  assert (Hw : w * Qc_of_Z n = 1).
  { unfold w. field. exact HN0. }
  assert (Hw0 : w <> 0).
  { intros E. rewrite E, Qcmult_0_l in Hw. discriminate Hw. }
  assert (Hwpos : 0 < w).
  { apply (Qcmult_lt_mono_pos_r 0 w (Qc_of_Z n) HN).
    rewrite Qcmult_0_l, Hw. reflexivity. }
  set (q := t / w).
  assert (Hq : q = t * Qc_of_Z n).
  { unfold q. rewrite <- (Qcmult_1_r t) at 1. rewrite <- Hw. field. exact Hw0. }
  assert (Hq0 : 0 <= q).
  { rewrite Hq. apply Qclt_le_weak.
    rewrite <- (Qcmult_0_l (Qc_of_Z n)).
    apply Qcmult_lt_mono_pos_r; assumption. }
  assert (HqN : q < Qc_of_Z n).
  { rewrite Hq. rewrite <- (Qcmult_1_l (Qc_of_Z n)) at 2.
    apply Qcmult_lt_mono_pos_r; assumption. }
  destruct (Qc_trunc_floor q Hq0) as (Hk0 & Hkq & Hqk).
  set (k := Qc_trunc q) in *.
  assert (Hkn : (k < n)%Z).
  { apply (proj2 (Z2Qc_inj_lt k n)). eapply Qcle_lt_trans; eassumption. }
  destruct (lookup_lt_is_Some_2 cs (Z.to_nat k)) as [c1 Hc1]; [unfold n in Hkn; lia|].
  destruct (lookup_lt_is_Some_2 cs (Z.to_nat (k + 1))) as [c2 Hc2]; [unfold n in Hkn; lia|].
  set (sv := (t - Qc_of_Z k * w) / w).
  assert (Hsv : sv = q - Qc_of_Z k).
  { unfold sv, q. field. exact Hw0. }
  assert (Htq : t = q * w).
  { unfold q. field. exact Hw0. }
  exists k, c1, c2, sv. repeat split; try assumption; try lia.
  - rewrite Htq. apply Qcmult_le_mono_pos_r; assumption.
  - rewrite Htq at 1. apply Qcmult_lt_mono_pos_r; assumption.
  - rewrite Hsv. apply (Qcplus_le_mono_r _ _ (Qc_of_Z k)).
    rewrite Qcplus_0_l. replace (q - Qc_of_Z k + Qc_of_Z k) with q by ring.
    exact Hkq.
  - rewrite Hsv. apply (Qcplus_lt_mono_r _ _ (Qc_of_Z k)).
    replace (q - Qc_of_Z k + Qc_of_Z k) with q by ring.
    rewrite Z2Qc_inj_add, Z2Qc_inj_1 in Hqk.
    rewrite (Qcplus_comm 1). exact Hqk.
  - unfold ColorGradient.get_color.
    change (of_int 0) with (Qc_of_Z 0). change (of_int 1) with (Qc_of_Z 1).
    rewrite Z2Qc_inj_0, Z2Qc_inj_1.
    rewrite (proj2 (Qc_fleb_false t 0)) by exact Ht0.
    unfold fgeb. rewrite (proj2 (Qc_fleb_false 1 t)) by exact Ht1.
    simpl colors. fold n. change (of_int n) with (Qc_of_Z n).
    rewrite (Qc_fdiv_nonzero 1 (Qc_of_Z n) HN0).
    fold w.
    cbn [mbind result_bind].
    rewrite (Qc_fdiv_nonzero t w Hw0). fold q.
    cbn [mbind result_bind trunc Qc_float]. fold k.
    change (of_int k) with (Qc_of_Z k). 
    change (fmul (Qc_of_Z k) w) with (Qc_of_Z k * w).
    change (fsub t (Qc_of_Z k * w)) with (t - Qc_of_Z k * w).
    rewrite (Qc_fdiv_nonzero _ w Hw0). fold sv.
    cbn [mbind result_bind].
    rewrite (getitem_nonneg cs k c1 Hk0 Hc1).
    cbn [mbind result_bind].
    rewrite (getitem_nonneg cs (k + 1) c2 ltac:(lia) Hc2).
    reflexivity.
Qed.
End GradientExact.

(** In exact arithmetic the gradient does what C7 says: the first stop
    for t <= 0, the last for t >= 1, and for 0 < t < 1 the interpolation
    of the stops k and k+1 of the segment [k/(N-1), (k+1)/(N-1)) that
    holds t, at t's relative position in it. *)
Lemma get_color_exact (cs : list (Color Qc))
    (interp : Color Qc -> Color Qc -> Qc -> result (Color Qc)) (t : Qc) :
  (2 <= length cs)%nat ->
  let g := mkColorGradient cs interp in
  let w := 1 / Qc_of_Z (Z.of_nat (length cs) - 1) in
  (t <= 0 -> ColorGradient.get_color g t = getitem cs 0 /\
             is_ok (getitem cs 0) = true) /\
  (1 <= t -> ColorGradient.get_color g t = getitem cs (-1) /\
             is_ok (getitem cs (-1)) = true) /\
  (0 < t -> t < 1 ->
   exists (k : Z) (c1 c2 : Color Qc) (sv : Qc),
     (0 <= k < Z.of_nat (length cs) - 1)%Z /\
     cs !! Z.to_nat k = Some c1 /\
     cs !! Z.to_nat (k + 1) = Some c2 /\
     Qc_of_Z k * w <= t /\ t < Qc_of_Z (k + 1) * w /\
     sv = (t - Qc_of_Z k * w) / w /\
     0 <= sv /\ sv < 1 /\
     ColorGradient.get_color g t = interp c1 c2 sv).
Proof.
  intros Hlen g w. subst g w.
  destruct (lookup_lt_is_Some_2 cs 0%nat) as [c0 Hc0]; [lia|].
  destruct (lookup_lt_is_Some_2 cs (Nat.pred (length cs))) as [cl Hcl]; [lia|].
  rewrite <- last_lookup in Hcl.
  split; [|split].
  - intros Ht. rewrite (get_color_low cs interp t c0 Ht Hc0).
    rewrite (getitem_nonneg cs 0 c0 ltac:(lia) Hc0). split; reflexivity.
  - intros Ht. rewrite (get_color_high cs interp t cl Ht Hcl).
    rewrite (getitem_last cs cl Hcl). split; reflexivity.
  - intros Ht0 Ht1. exact (get_color_inside cs interp t Hlen Ht0 Ht1).
Qed.

End ColorsExact.

(** At the endpoints binary64 agrees: at(0) and at(1) are the first and
    the last stop. *)
Example get_color_endpoints_binary64 :
  ColorGradient.get_color four_stops 0%float = Ok red_color /\
  ColorGradient.get_color four_stops 1%float = Ok white_color.
Proof. split; vm_compute; reflexivity. Qed.

(** On binary64, [interpolate(A, A, t)] is A at sample points of [0, 1]. *)
Example interpolate_same_binary64 :
  map (Colors.interpolate lime_color lime_color)
    [ 0%float; 0x1p-2%float; 0x1p-1%float; 0x1.8p-1%float; below_one; 1%float ] =
  repeat (Ok lime_color) 6.
Proof. vm_compute. reflexivity. Qed.

(** C7.  On binary64, the arithmetic the interpreter performs, a
    four-stop gradient evaluated at the largest float below 1 does not
    return a colour: 1.0 / 3 rounds down, the quotient t / segment_size
    rounds up to 3.0, the segment index is 3 instead of 2, and indexing
    the stop after it raises IndexError, whatever the four stops and the
    interpolation function are. *)
Theorem get_color_binary64_index_error :
  fltb 0%float below_one = true /\
  fltb below_one 1%float = true /\
  (fdiv 1%float (of_int 3) ≫= fun segment_size =>
   fdiv below_one segment_size ≫= trunc) = Ok 3%Z /\
  (forall (c0 c1 c2 c3 : Color float) interp,
     ColorGradient.get_color (mkColorGradient [c0; c1; c2; c3] interp) below_one =
     Raise IndexError) /\
  ColorGradient.get_color four_stops below_one = Raise IndexError.
Proof.
  split; [reflexivity|]. split; [reflexivity|].
  split; [vm_compute; reflexivity|]. split.
  - intros c0 c1 c2 c3 interp. vm_compute. reflexivity.
  - vm_compute. reflexivity.
Qed.

(** * Strings *)

#[local] Arguments String.append : simpl nomatch.

Section StringFacts.

Lemma append_nil_r (s : string) : s ++ "" = s.
Proof. induction s as [|c s IH]; simpl; congruence. Qed.

Lemma append_assoc (a b c : string) : (a ++ b) ++ c = a ++ (b ++ c).
Proof. induction a as [|x a IH]; simpl; congruence. Qed.

Lemma length_append (a b : string) :
  String.length (a ++ b) = (String.length a + String.length b)%nat.
Proof. induction a as [|x a IH]; simpl; congruence. Qed.

Lemma list_ascii_of_append (a b : string) :
  list_ascii_of_string (a ++ b) =
  (list_ascii_of_string a ++ list_ascii_of_string b)%list.
Proof. induction a as [|x a IH]; simpl; congruence. Qed.

Lemma string_of_list_ascii_app (l1 l2 : list ascii) :
  string_of_list_ascii (l1 ++ l2) =
  string_of_list_ascii l1 ++ string_of_list_ascii l2.
Proof. induction l1 as [|x l1 IH]; simpl; congruence. Qed.

Lemma reverse_string_append (a b : string) :
  reverse_string (a ++ b) = reverse_string b ++ reverse_string a.
Proof.
  unfold reverse_string.
  rewrite list_ascii_of_append, rev_app_distr. apply string_of_list_ascii_app.
Qed.

Lemma substring_0_append (a b : string) :
  String.substring 0 (String.length a) (a ++ b) = a.
Proof.
  induction a as [|x a IH]; simpl; [destruct b; reflexivity | congruence].
Qed.

Lemma concat_empty_cons (a : string) (l : list string) :
  String.concat "" (a :: l) = a ++ String.concat "" l.
Proof. destruct l; simpl; [symmetry; apply append_nil_r | reflexivity]. Qed.

Lemma concat_empty_app (l1 l2 : list string) :
  String.concat "" (l1 ++ l2) = String.concat "" l1 ++ String.concat "" l2.
Proof.
  induction l1 as [|a l1 IH]; [reflexivity|].
  change ((a :: l1) ++ l2)%list with (a :: (l1 ++ l2))%list.
  rewrite !concat_empty_cons, IH, append_assoc. reflexivity.
Qed.

Lemma length_spaces (n : Z) :
  Z.of_nat (String.length (DefaultFdMixin.spaces n)) = Z.max 0 n.
Proof.
  unfold DefaultFdMixin.spaces.
  assert (Hlen : forall l, String.length (string_of_list_ascii l) = length l).
  { induction l; simpl; congruence. }
  rewrite Hlen, repeat_length. lia.
Qed.

End StringFacts.

(** * The ANSI encoder, continued *)

Lemma format_csi_template (args code : string) :
  format (ESC ++ "[{args}{code}") [ ("args", args); ("code", code) ] =
  Ok (ESC ++ "[" ++ args ++ code).
Proof.
  unfold format, ESC. simpl. rewrite append_nil_r. reflexivity.
Qed.

Lemma csi_call_exact (cls : class_name) (code : string)
    (defaults args : list Z) :
  CSI.__call__ (CSI.__init__ cls code defaults) args =
  Ok (ESC ++ "[" ++
      String.concat ";"
        (map pretty (match args with [] => defaults | _ => args end)) ++
      code).
Proof. rewrite csi_call_renders. apply format_csi_template. Qed.

(** A CSI builder never raises: whatever its class, code, defaults and
    arguments, the call returns ESC, '[', the arguments joined by ';' and
    the code; arguments, when given, replace all the defaults. *)
Theorem csi_call_sequence (cls : class_name) (code : string)
    (defaults args : list Z) :
  CSI.__call__ (CSI.__init__ cls code defaults) args =
  Ok (ESC ++ "[" ++
      String.concat ";"
        (map pretty (match args with [] => defaults | _ => args end)) ++
      code).
Proof. exact (csi_call_exact cls code defaults args). Qed.

(** * The cursor position report *)

Section Report.

Lemma endswith_R_snoc (res : string) (c : ascii) :
  endswith (res ++ String c "") "R" = if ascii_dec "R" c then true else false.
Proof.
  unfold endswith. rewrite reverse_string_append.
  change (reverse_string (String c "")) with (String c "").
  change (reverse_string "R") with "R".
  change (String c "" ++ reverse_string res) with (String c (reverse_string res)).
  change (String.prefix "R" (String c (reverse_string res)))
    with (if ascii_dec "R"%char c then String.prefix "" (reverse_string res)
          else false).
  destruct (ascii_dec "R" c); [destruct (reverse_string res)|]; reflexivity.
Qed.

Lemma read_done (keys : list (option string)) (res : string) :
  endswith res "R" = true -> _CPR.read keys res = Some (res, keys).
Proof. intros E. destruct keys as [|[k|] keys]; simpl; rewrite E; reflexivity. Qed.

Lemma read_some (keys : list (option string)) (res char : string) :
  endswith res "R" = false ->
  _CPR.read (Some char :: keys) res = _CPR.read keys (res ++ char).
Proof. intros E. simpl. rewrite E. reflexivity. Qed.

Lemma read_none (keys : list (option string)) (res : string) :
  endswith res "R" = false ->
  _CPR.read (None :: keys) res = _CPR.read keys res.
Proof. intros E. simpl. rewrite E. reflexivity. Qed.

(** The loop takes the keys up to the first 'R' and no further. *)
Lemma read_reply (body : string) : forall (res : string) (rest : list (option string)),
  endswith res "R" = false ->
  Forall (fun c => c <> "R"%char) (list_ascii_of_string body) ->
  _CPR.read (keys_of (body ++ "R") ++ rest) res = Some (res ++ body ++ "R", rest).
Proof.
  induction body as [|c body IH]; intros res rest Hres Hbody.
  - change (keys_of ("" ++ "R") ++ rest)%list with (Some "R" :: rest).
    change ("" ++ "R") with "R".
    rewrite read_some by exact Hres. apply read_done.
    rewrite endswith_R_snoc. destruct (ascii_dec "R" "R"); congruence.
  - inversion Hbody as [|? ? Hc Hbody']; subst.
    change (keys_of (String c body ++ "R") ++ rest)%list
      with (Some (String c "") :: (keys_of (body ++ "R") ++ rest))%list.
    rewrite read_some by exact Hres.
    rewrite (IH (res ++ String c "") rest).
    + rewrite append_assoc. reflexivity.
    + rewrite endswith_R_snoc. destruct (ascii_dec "R" c); congruence.
    + exact Hbody'.
Qed.

Lemma slice_reply (a b : ascii) (body : string) (z : ascii) :
  slice_2_m1 (String a (String b (body ++ String z ""))) = body.
Proof.
  unfold slice_2_m1. simpl String.length. rewrite length_append. simpl.
  replace (String.length body + 1 - 1)%nat with (String.length body) by lia.
  apply substring_0_append.
Qed.

Lemma string_of_list_ascii_of_app (cur : list ascii) (s : string) :
  string_of_list_ascii (cur ++ list_ascii_of_string s) =
  string_of_list_ascii cur ++ s.
Proof.
  rewrite string_of_list_ascii_app, string_of_list_ascii_of_string. reflexivity.
Qed.

Lemma split_from_last (sep : ascii) (s : string) : forall cur,
  Forall (fun c => c <> sep) (list_ascii_of_string s) ->
  split_from sep cur s = [string_of_list_ascii (rev cur) ++ s].
Proof.
  induction s as [|c s IH]; intros cur Hs; simpl.
  - rewrite append_nil_r. reflexivity.
  - inversion Hs as [|? ? Hc Hs']; subst.
    destruct (Ascii.eqb_spec c sep) as [->|_]; [contradiction|].
    rewrite (IH (c :: cur) Hs'). simpl.
    rewrite string_of_list_ascii_app, append_assoc. reflexivity.
Qed.

Lemma split_from_sep (sep : ascii) (s t : string) : forall cur,
  Forall (fun c => c <> sep) (list_ascii_of_string s) ->
  split_from sep cur (s ++ String sep t) =
  (string_of_list_ascii (rev cur) ++ s) :: split_from sep [] t.
Proof.
  induction s as [|c s IH]; intros cur Hs; simpl.
  - rewrite Ascii.eqb_refl, append_nil_r. reflexivity.
  - inversion Hs as [|? ? Hc Hs']; subst.
    destruct (Ascii.eqb_spec c sep) as [->|_]; [contradiction|].
    rewrite (IH (c :: cur) Hs'). simpl.
    rewrite string_of_list_ascii_app, append_assoc. reflexivity.
Qed.

Lemma digit_char (d : N) :
  (d < 10)%N ->
  is_digit (pretty_N_char d) = true /\
  Z.of_nat (nat_of_ascii (pretty_N_char d)) - 48 = Z.of_N d.
Proof.
  intros Hd.
  assert (d = 0 \/ d = 1 \/ d = 2 \/ d = 3 \/ d = 4 \/ d = 5 \/ d = 6 \/ d = 7
          \/ d = 8 \/ d = 9)%N as Hcases by lia.
  repeat (destruct Hcases as [->|Hcases]; [split; reflexivity|]).
  subst. split; reflexivity.
Qed.

Lemma pretty_N_go_digits (x : N) : forall s,
  forallb is_digit (list_ascii_of_string s) = true ->
  forallb is_digit (list_ascii_of_string (pretty_N_go x s)) = true.
Proof.
  induction (N.lt_wf_0 x) as [x _ IH]; intros s Hs.
  destruct (N.eq_dec x 0%N) as [->|Hx]; [exact Hs|].
  rewrite pretty_N_go_step by lia.
  apply IH; [apply N.div_lt; lia|].
  simpl. rewrite Hs, andb_true_r.
  apply digit_char. apply N.mod_lt. lia.
Qed.

Lemma pretty_N_go_nonempty (x : N) : forall s,
  s <> "" -> pretty_N_go x s <> "".
Proof.
  induction (N.lt_wf_0 x) as [x _ IH]; intros s Hs.
  destruct (N.eq_dec x 0%N) as [->|Hx]; [exact Hs|].
  rewrite pretty_N_go_step by lia.
  apply IH; [apply N.div_lt; lia | discriminate].
Qed.

Lemma pretty_N_go_value (x : N) : forall (s : string) (acc : Z),
  exists k : Z,
    0 <= k /\
    fold_left (fun a c => 10 * a + (Z.of_nat (nat_of_ascii c) - 48))
      (list_ascii_of_string (pretty_N_go x s)) acc =
    fold_left (fun a c => 10 * a + (Z.of_nat (nat_of_ascii c) - 48))
      (list_ascii_of_string s) (acc * 10 ^ k + Z.of_N x).
Proof.
  induction (N.lt_wf_0 x) as [x _ IH]; intros s acc.
  destruct (N.eq_dec x 0%N) as [->|Hx].
  - exists 0. split; [lia|]. rewrite pretty_N_go_0. f_equal. simpl. lia.
  - rewrite pretty_N_go_step by lia.
    destruct (IH (x `div` 10)%N ltac:(apply N.div_lt; lia)
                (String (pretty_N_char (x `mod` 10)) s) acc) as (k & Hk & ->).
    exists (k + 1). split; [lia|]. simpl. f_equal.
    destruct (digit_char (x `mod` 10)%N ltac:(apply N.mod_lt; lia)) as [_ ->].
    rewrite Z.pow_add_r by lia.
    rewrite N2Z.inj_mod, N2Z.inj_div.
    pose proof (Z.div_mod (Z.of_N x) 10 ltac:(lia)) as Hdm.
    change (Z.of_N 10) with 10. lia.
Qed.

Lemma pretty_N_isdigit (x : N) : isdigit (pretty x) = true.
Proof.
  unfold pretty, pretty_N. destruct (decide (x = 0%N)) as [->|Hx]; [reflexivity|].
  unfold isdigit.
  destruct (pretty_N_go x "") eqn:E.
  - exfalso. rewrite pretty_N_go_step in E by lia.
    revert E. apply pretty_N_go_nonempty. discriminate.
  - rewrite <- E. apply pretty_N_go_digits. reflexivity.
Qed.

(** [int] undoes [str] on non-negative integers. *)
Lemma int_of_digits_pretty (x : N) : int_of_digits (pretty x) = Z.of_N x.
Proof.
  unfold pretty, pretty_N, int_of_digits.
  destruct (decide (x = 0%N)) as [->|Hx]; [reflexivity|].
  destruct (pretty_N_go_value x "" 0) as (k & _ & ->). simpl. lia.
Qed.

Lemma pretty_Z_of_N (x : N) : pretty (Z.of_N x) = pretty x.
Proof. destruct x; reflexivity. Qed.

Lemma digits_exclude (c : ascii) (s : string) :
  is_digit c = false ->
  isdigit s = true ->
  Forall (fun c' => c' <> c) (list_ascii_of_string s).
Proof.
  intros Hc Hs. unfold isdigit in Hs.
  assert (H : forallb is_digit (list_ascii_of_string s) = true).
  { destruct s; [discriminate | exact Hs]. }
  clear Hs. induction (list_ascii_of_string s) as [|a l IH]; constructor.
  - simpl in H. apply andb_true_iff in H as [Ha _]. congruence.
  - apply IH. simpl in H. apply andb_true_iff in H as [_ Hl]. exact Hl.
Qed.

End Report.

(** What CSI renders for the code 'R' and two non-negative numbers is
    read back as these two numbers: the call writes its query, takes the
    key presses of the reply up to the 'R' and leaves the later ones, and
    returns the pair. *)
Theorem cursor_report_round_trip (row col : N) (query : string)
    (stream : list string) (rest : list (option string)) :
  exists reply : string,
    CSI.__call__ (CSI.__init__ CSI_class "R" []) [Z.of_N row; Z.of_N col] =
      Ok reply /\
    _CPR.__call__ query stream (keys_of reply ++ rest) =
      ((stream ++ [query])%list,
       Some (_CPR.Fields [_CPR.FieldInt (Z.of_N row); _CPR.FieldInt (Z.of_N col)],
             rest)).
Proof.
  eexists. split; [apply csi_call_exact|].
  cbn [map String.concat]. rewrite !pretty_Z_of_N.
  set (r := pretty row). set (c := pretty col).
  assert (Hr : isdigit r = true) by apply pretty_N_isdigit.
  assert (Hc : isdigit c = true) by apply pretty_N_isdigit.
  set (body := r ++ ";" ++ c).
  assert (Hreply : ESC ++ "[" ++ body ++ "R" = (ESC ++ "[" ++ body) ++ "R").
  { rewrite !append_assoc. reflexivity. }
  rewrite Hreply. unfold _CPR.__call__.
  rewrite (read_reply (ESC ++ "[" ++ body) "" rest).
  - f_equal. f_equal. f_equal.
    unfold _CPR.parse, ESC. simpl append.
    rewrite slice_reply. unfold split, body.
    change (";" ++ c) with (String ";" c).
    rewrite (split_from_sep ";" r c []) by (apply digits_exclude; [reflexivity | exact Hr]).
    rewrite (split_from_last ";" c []) by (apply digits_exclude; [reflexivity | exact Hc]).
    simpl. rewrite Hr, Hc. unfold r, c. rewrite !int_of_digits_pretty. reflexivity.
  - reflexivity.
  - unfold ESC, body. simpl. constructor; [discriminate|]. constructor; [discriminate|].
    rewrite !list_ascii_of_append. apply Forall_app. split.
    + apply digits_exclude; [reflexivity | exact Hr].
    + simpl. constructor; [discriminate|]. apply digits_exclude; [reflexivity | exact Hc].
Qed.

Lemma read_waits (chars : list (option ascii)) : forall res : string,
  endswith res "R" = false ->
  Forall (fun key => key <> Some "R"%char) chars ->
  _CPR.read (map (option_map (fun c => String c "")) chars) res = None.
Proof.
  induction chars as [|[c|] chars IH]; intros res Hres Hchars.
  - simpl. rewrite Hres. reflexivity.
  - inversion Hchars as [|? ? Hc Hchars']; subst.
    change (map (option_map (fun c => String c "")) (Some c :: chars))
      with (Some (String c "") :: map (option_map (fun c => String c "")) chars).
    rewrite read_some by exact Hres.
    apply IH; [|exact Hchars'].
    rewrite endswith_R_snoc. destruct (ascii_dec "R" c); congruence.
  - inversion Hchars; subst.
    change (map (option_map (fun c => String c "")) (None :: chars))
      with (None :: map (option_map (fun c => String c "")) chars).
    rewrite read_none by exact Hres. apply IH; assumption.
Qed.

(** The call does not return before an 'R' is read: while every key press
    is None or a character other than 'R', it has written its query, taken
    all the keys and is still waiting. *)
Theorem cursor_report_waits_for_R (query : string) (stream : list string)
    (chars : list (option ascii)) :
  Forall (fun key => key <> Some "R"%char) chars ->
  _CPR.__call__ query stream (map (option_map (fun c => String c "")) chars) =
  ((stream ++ [query])%list, None).
Proof.
  intros Hchars. unfold _CPR.__call__.
  rewrite (read_waits chars "" ltac:(reflexivity) Hchars). reflexivity.
Qed.

Lemma cursor_report_waits_for_R_witness :
  _CPR.__call__ "query" []
    (map (option_map (fun c => String c ""))
       [Some "027"%char; None; Some "["%char; Some "1"%char; Some ";"%char]) =
  (["query"], None).
Proof.
  apply (cursor_report_waits_for_R "query" []
           [Some "027"%char; None; Some "["%char; Some "1"%char; Some ";"%char]).
  repeat constructor; discriminate.
Defined.

(** * The Windows palette *)

Section Palette.
Context {F : Type} `{PyFloat F}.
Variable inf : F.
Variable pow_half : Z -> F.
Variable rgb : Z * Z * Z.

Local Abbreviation d := (fun c => WindowsColors.squared_distance rgb (WindowsColors.value c)).

(** The comparisons of the loop are exact on the distances at hand. *)
Hypothesis compare_exact : forall c1 c2 : WindowsColors.t,
  fltb (pow_half (d c1)) (pow_half (d c2)) = (d c1 <? d c2).
Hypothesis below_inf : forall c : WindowsColors.t,
  fltb (pow_half (d c)) inf = true.

Lemma closest_from_state (colors : list WindowsColors.t) : forall c0 : WindowsColors.t,
  exists c,
    WindowsColors.closest_from pow_half rgb colors (pow_half (d c0)) (Some c0) =
      Some c /\
    ((c = c0 /\ Forall (fun c' => d c0 <= d c') colors) \/
     (exists before after,
        colors = (before ++ c :: after)%list /\
        d c < d c0 /\
        Forall (fun c' => d c < d c') before /\
        Forall (fun c' => d c <= d c') after)).
Proof.
  induction colors as [|c1 colors IH]; intros c0.
  - exists c0. split; [reflexivity|]. left. split; [reflexivity | constructor].
  - simpl. rewrite compare_exact.
    destruct (Z.ltb_spec (d c1) (d c0)) as [Hlt|Hge].
    + destruct (IH c1) as (c & Hc & [[-> Hall] | (before & after & -> & Hd & Hb & Ha)]).
      * exists c1. split; [exact Hc|]. right. exists [], colors.
        repeat split; [exact Hlt | constructor | exact Hall].
      * exists c. split; [exact Hc|]. right. exists (c1 :: before), after.
        repeat split; [lia | | exact Ha].
        constructor; [exact Hd | exact Hb].
    + destruct (IH c0) as (c & Hc & [[-> Hall] | (before & after & -> & Hd & Hb & Ha)]).
      * exists c0. split; [exact Hc|]. left. split; [reflexivity|].
        constructor; [exact Hge | exact Hall].
      * exists c. split; [exact Hc|]. right. exists (c1 :: before), after.
        repeat split; [exact Hd | | exact Ha].
        constructor; [lia | exact Hb].
Qed.

Lemma from_rgb_first_nearest :
  exists c before after,
    WindowsColors.from_rgb inf pow_half rgb = Some c /\
    WindowsColors.members = (before ++ c :: after)%list /\
    Forall (fun c' => d c < d c') before /\
    Forall (fun c' => d c <= d c') after.
Proof.
  unfold WindowsColors.from_rgb.
  change WindowsColors.members
    with (WindowsColors.BLACK :: tl WindowsColors.members).
  cbn [WindowsColors.closest_from]. rewrite below_inf.
  destruct (closest_from_state (tl WindowsColors.members) WindowsColors.BLACK)
    as (c & Hc & [[-> Hall] | (before & after & Heq & Hd & Hb & Ha)]).
  - exists WindowsColors.BLACK, [], (tl WindowsColors.members).
    repeat split; [exact Hc | constructor | exact Hall].
  - exists c, (WindowsColors.BLACK :: before), after.
    repeat split; [exact Hc | | | exact Ha].
    + rewrite Heq. reflexivity.
    + constructor; [exact Hd | exact Hb].
Qed.

End Palette.

(** Where the comparisons of the distances to the input colour are exact,
    [from_rgb] returns the member of the palette nearest to it, and of
    several nearest ones the first in definition order: every member
    before it is strictly farther, every member after it is not nearer. *)
Theorem from_rgb_nearest_first {F : Type} `{PyFloat F} (inf : F)
    (pow_half : Z -> F) (rgb : Z * Z * Z) :
  (forall c1 c2 : WindowsColors.t,
     fltb (pow_half (WindowsColors.squared_distance rgb (WindowsColors.value c1)))
          (pow_half (WindowsColors.squared_distance rgb (WindowsColors.value c2))) =
     (WindowsColors.squared_distance rgb (WindowsColors.value c1) <?
      WindowsColors.squared_distance rgb (WindowsColors.value c2))) ->
  (forall c : WindowsColors.t,
     fltb (pow_half (WindowsColors.squared_distance rgb (WindowsColors.value c)))
          inf = true) ->
  exists c before after,
    WindowsColors.from_rgb inf pow_half rgb = Some c /\
    WindowsColors.members = (before ++ c :: after)%list /\
    Forall (fun c' =>
              WindowsColors.squared_distance rgb (WindowsColors.value c) <
              WindowsColors.squared_distance rgb (WindowsColors.value c')) before /\
    Forall (fun c' =>
              WindowsColors.squared_distance rgb (WindowsColors.value c) <=
              WindowsColors.squared_distance rgb (WindowsColors.value c')) after.
Proof. intros Hcmp Hinf. exact (from_rgb_first_nearest inf pow_half rgb Hcmp Hinf). Qed.

Lemma from_rgb_nearest_first_witness :
  exists c before after,
    WindowsColors.from_rgb infinity binary64_pow_half (45, 45, 45) = Some c /\
    WindowsColors.members = (before ++ c :: after)%list /\
    Forall (fun c' =>
              WindowsColors.squared_distance (45, 45, 45) (WindowsColors.value c) <
              WindowsColors.squared_distance (45, 45, 45) (WindowsColors.value c'))
      before /\
    Forall (fun c' =>
              WindowsColors.squared_distance (45, 45, 45) (WindowsColors.value c) <=
              WindowsColors.squared_distance (45, 45, 45) (WindowsColors.value c'))
      after.
Proof.
  apply (from_rgb_nearest_first infinity binary64_pow_half (45, 45, 45)).
  - intros c1 c2. destruct c1, c2; vm_compute; reflexivity.
  - intros c. destruct c; vm_compute; reflexivity.
Defined.

(** Under the same condition every colour of the palette is its own
    nearest member. *)
Theorem from_rgb_of_member {F : Type} `{PyFloat F} (inf : F)
    (pow_half : Z -> F) (c : WindowsColors.t) :
  (forall c1 c2 : WindowsColors.t,
     fltb (pow_half (WindowsColors.squared_distance (WindowsColors.value c)
                       (WindowsColors.value c1)))
          (pow_half (WindowsColors.squared_distance (WindowsColors.value c)
                       (WindowsColors.value c2))) =
     (WindowsColors.squared_distance (WindowsColors.value c) (WindowsColors.value c1) <?
      WindowsColors.squared_distance (WindowsColors.value c) (WindowsColors.value c2))) ->
  (forall c' : WindowsColors.t,
     fltb (pow_half (WindowsColors.squared_distance (WindowsColors.value c)
                       (WindowsColors.value c')))
          inf = true) ->
  WindowsColors.from_rgb inf pow_half (WindowsColors.value c) = Some c.
Proof.
  intros Hcmp Hinf.
  destruct (from_rgb_first_nearest inf pow_half (WindowsColors.value c) Hcmp Hinf)
    as (c' & before & after & -> & Hm & Hb & Ha).
  f_equal.
  assert (Hin : In c WindowsColors.members) by (destruct c; simpl; tauto).
  assert (Hself : WindowsColors.squared_distance (WindowsColors.value c)
                    (WindowsColors.value c) = 0) by (destruct c; reflexivity).
  assert (Hle : WindowsColors.squared_distance (WindowsColors.value c)
                  (WindowsColors.value c') <= 0).
  { rewrite Hm in Hin. apply in_app_or in Hin as [Hin | [-> | Hin]].
    - rewrite Forall_forall in Hb. specialize (Hb c Hin). lia.
    - lia.
    - rewrite Forall_forall in Ha. specialize (Ha c Hin). lia. }
  destruct c, c'; try reflexivity; exfalso; revert Hle; vm_compute; intros Hle;
    apply Hle; reflexivity.
Qed.

Lemma from_rgb_of_member_witness :
  WindowsColors.from_rgb infinity binary64_pow_half
    (WindowsColors.value WindowsColors.GREY) = Some WindowsColors.GREY.
Proof.
  apply (from_rgb_of_member infinity binary64_pow_half WindowsColors.GREY).
  - intros c1 c2. destruct c1, c2; vm_compute; reflexivity.
  - intros c. destruct c; vm_compute; reflexivity.
Defined.

(** The doctest of [from_rgb], on binary64. *)
Example from_rgb_doctest :
  map (WindowsColors.from_rgb infinity binary64_pow_half)
    [ (0, 0, 0); (255, 255, 255); (0, 255, 0); (45, 45, 45); (128, 0, 128) ] =
  [ Some WindowsColors.BLACK; Some WindowsColors.INTENSE_WHITE;
    Some WindowsColors.INTENSE_GREEN; Some WindowsColors.BLACK;
    Some WindowsColors.MAGENTA ].
Proof. vm_compute. reflexivity. Qed.

(** * The line of a bar *)

(** The formatted line is the prefix, the widgets in order and the suffix,
    padded with spaces up to the terminal width, on the right when left
    justified and on the left otherwise; it is never cut: measured in
    characters, its length is the larger of the terminal width and the
    length of the unpadded line. *)
Theorem format_line_pads_to_width (prefix suffix : option string)
    (widgets : list widget) (term_width : Z) (left_justify : bool) :
  let line :=
    default "" prefix ++
    String.concat "" (map DefaultFdMixin.str_of widgets) ++
    default "" suffix in
  let padding :=
    DefaultFdMixin.spaces (term_width - Z.of_nat (String.length line)) in
  let out :=
    DefaultFdMixin._format_line prefix suffix widgets
      (fun s => Z.of_nat (String.length s)) term_width left_justify in
  out = (if left_justify then line ++ padding else padding ++ line) /\
  Z.of_nat (String.length out) = Z.max term_width (Z.of_nat (String.length line)).
Proof.
  intros line padding out.
  assert (Hsp : forall n, DefaultFdMixin.spaces (Z.max 0 n) = DefaultFdMixin.spaces n).
  { intros n. unfold DefaultFdMixin.spaces. f_equal. f_equal. lia. }
  assert (Hout : out = (if left_justify then line ++ padding else padding ++ line)).
  { unfold out, DefaultFdMixin._format_line. cbv zeta.
    match goal with
    | |- context [String.concat "" ?R] =>
        assert (Hline : String.concat "" R = line)
    end.
    { unfold line.
      destruct prefix as [[|? ?]|], suffix as [[|? ?]|];
        cbn [DefaultFdMixin.truthy_str env.nonempty default app];
        repeat (rewrite concat_empty_app || rewrite concat_empty_cons);
        cbn [String.concat app]; rewrite ?append_nil_r; reflexivity. }
    rewrite Hline, Hsp. fold padding.
    destruct (Z.eqb_spec (Z.max 0 (term_width - Z.of_nat (String.length line))) 0)
      as [E|E]; cbn [negb andb].
    - assert (Hz : padding = "").
      { unfold padding, DefaultFdMixin.spaces.
        replace (Z.to_nat (term_width - Z.of_nat (String.length line))) with 0%nat
          by lia. reflexivity. }
      rewrite Hz, append_nil_r. destruct left_justify; reflexivity.
    - destruct left_justify; reflexivity. }
  split; [exact Hout|].
  rewrite Hout.
  assert (Hlen : Z.of_nat (String.length (line ++ padding)) =
                 Z.max term_width (Z.of_nat (String.length line))).
  { rewrite length_append, Nat2Z.inj_add. unfold padding.
    rewrite length_spaces. lia. }
  destruct left_justify; [exact Hlen|].
  rewrite length_append, Nat.add_comm, <- length_append. exact Hlen.
Qed.

(** * The engine, continued *)

Section EngineMore.
Context {F A : Type} `{PyFloat F}.

Lemma wrap_sequence (self : ProgressBar F A) (items : list A) :
  _iterable (wrap self (Sequence items)) = Some (map Yield items) /\
  start_time (wrap self (Sequence items)) = start_time self /\
  calls (wrap self (Sequence items)) = calls self /\
  max_value (wrap self (Sequence items)) =
    match max_value self with
    | MaxNone => MaxNumber (of_int (Z.of_nat (length items)))
    | m => m
    end.
Proof.
  unfold wrap, ProgressBar.__call__. simpl.
  destruct (max_value self) eqn:E; simpl; rewrite ?E; repeat split.
Qed.

(** Every retrieval that finds an item returns it, whatever [start_time]
    is, and keeps [start_time]. *)
Lemma next_item (self : ProgressBar F A) a rest :
  _iterable self = Some (Yield a :: rest) ->
  exists self',
    ProgressBar.__next__ self = (self', Ok (Item a)) /\
    _iterable self' = Some rest /\
    start_time self' = start_time self /\
    max_value self' = max_value self.
Proof.
  intros Hit. unfold ProgressBar.__next__. rewrite Hit. simpl.
  destruct (start_time self) eqn:E; simpl; eexists; repeat split; exact E.
Qed.

Lemma for_loop_items (items : list A) : forall self : ProgressBar F A,
  _iterable self = Some (map Yield items) ->
  exists self',
    ProgressBar.for_loop (S (length items)) self =
      Some (self', map Item items, Ok tt) /\
    _iterable self' = Some [] /\
    max_value self' = max_value self.
Proof.
  induction items as [|a items IH]; intros self Hit.
  - exists (ProgressBar.finish (ProgressBar.set_iterable self (Some [])) false).1.
    unfold ProgressBar.for_loop, ProgressBar.__next__. rewrite Hit. simpl.
    repeat split.
  - destruct (next_item self a (map Yield items) Hit) as (s1 & Hn & Hit1 & _ & Hm1).
    destruct (IH s1 Hit1) as (s' & Hloop & Hit' & Hm').
    exists s'. split; [|split; [exact Hit' | congruence]].
    change (ProgressBar.for_loop (S (length (a :: items))) self)
      with (match ProgressBar.__next__ self with
            | (s, Ok v) =>
                match ProgressBar.for_loop (S (length items)) s with
                | Some (s', vs, r) => Some (s', v :: vs, r)
                | None => None
                end
            | (s, Raise StopIteration) => Some (s, [], Ok tt)
            | (s, Raise e) => Some (s, [], Raise e)
            end).
    rewrite Hn, Hloop. reflexivity.
Qed.

End EngineMore.

(** [for x in bar(seq)] hands out exactly the items of [seq], in order,
    and then ends normally, for every bar, started or not; a bar without
    max_value takes the length of the sequence as its max_value, any other
    keeps the one it has. *)
Theorem iteration_yields_the_items {F A : Type} `{PyFloat F}
    (self : ProgressBar F A) (items : list A) :
  exists done,
    ProgressBar.for_loop (S (length items)) (wrap self (Sequence items)) =
      Some (done, map Item items, Ok tt) /\
    _iterable done = Some [] /\
    max_value done =
      match max_value self with
      | MaxNone => MaxNumber (of_int (Z.of_nat (length items)))
      | m => m
      end.
Proof.
  destruct (wrap_sequence self items) as (Hit & _ & _ & Hm).
  destruct (for_loop_items items _ Hit) as (done & Hloop & Hit' & Hm').
  exists done. split; [exact Hloop|]. split; [exact Hit'|].
  rewrite Hm'. exact Hm.
Qed.

(** An exception of the wrapped iterator other than StopIteration and
    GeneratorExit leaves [__next__] as it is, and neither [finish] nor
    any other engine method is called on the way. *)
Theorem next_propagates_other_errors {F A : Type} `{PyFloat F}
    (self : ProgressBar F A) (e : exception) (rest : list (step A)) :
  _iterable self = Some (Throw e :: rest) ->
  e <> StopIteration ->
  e <> GeneratorExit ->
  (ProgressBar.__next__ self).2 = Raise e /\
  calls (ProgressBar.__next__ self).1 = calls self.
Proof.
  intros Hit H1 H2. unfold ProgressBar.__next__. rewrite Hit. simpl.
  destruct e; try contradiction; repeat split.
Qed.

Lemma next_propagates_other_errors_witness :
  (ProgressBar.__next__
     (wrap started_bar (Generator [Yield 1%nat; Throw ValueError]))).2 =
    Ok (Item 1%nat) /\
  (ProgressBar.__next__
     (wrap started_bar (Generator [Throw ValueError; Yield 1%nat]))).2 =
    Raise ValueError.
Proof.
  split; [reflexivity|].
  apply (next_propagates_other_errors
           (wrap started_bar (Generator [Throw ValueError; Yield 1%nat]))
           ValueError [Yield 1%nat]); [reflexivity | discriminate | discriminate].
Defined.

(** A bar that wraps no iterable hands out its own value at every
    retrieval and never raises StopIteration: a loop over it does not
    end, whatever the number of retrievals. *)
Theorem unwrapped_iteration_never_ends {F A : Type} `{PyFloat F}
    (fuel : nat) : forall self : ProgressBar F A,
  _iterable self = None ->
  (ProgressBar.__next__ self).2 = Ok (OwnValue (value self)) /\
  _iterable (ProgressBar.__next__ self).1 = None /\
  ProgressBar.for_loop fuel self = None.
Proof.
  assert (Hnext : forall self : ProgressBar F A,
             _iterable self = None ->
             (ProgressBar.__next__ self).2 = Ok (OwnValue (value self)) /\
             _iterable (ProgressBar.__next__ self).1 = None).
  { intros self Hit. unfold ProgressBar.__next__. rewrite Hit.
    destruct (start_time self); simpl; split; assumption || reflexivity. }
  induction fuel as [|fuel IH]; intros self Hit;
    destruct (Hnext self Hit) as [Hv Hn]; (split; [exact Hv|]); (split; [exact Hn|]).
  - reflexivity.
  - cbn [ProgressBar.for_loop].
    destruct (ProgressBar.__next__ self) as [self' r] eqn:E.
    cbn [fst snd] in Hv, Hn. rewrite Hv.
    destruct (IH self' Hn) as (_ & _ & Hloop). rewrite Hloop. reflexivity.
Qed.

Lemma unwrapped_iteration_never_ends_witness :
  ProgressBar.for_loop 25 (new_bar (F:=float) (A:=nat) throttled_args) = None.
Proof.
  apply (unwrapped_iteration_never_ends 25 (new_bar throttled_args)).
  reflexivity.
Defined.

(** * The engine in exact arithmetic, continued *)

Section EngineExactMore.
Local Open Scope Qc_scope.

Lemma Qc_sub_nonneg (a b : Qc) : a <= b -> 0 <= b - a.
Proof.
  intros Hab. apply (Qcplus_le_mono_r _ _ a).
  replace (b - a + a) with b by ring. rewrite Qcplus_0_l. exact Hab.
Qed.

Lemma Qc_sub_pos (a b : Qc) : a < b -> 0 < b - a.
Proof.
  intros Hab. apply (Qcplus_lt_mono_r _ _ a).
  replace (b - a + a) with b by ring. rewrite Qcplus_0_l. exact Hab.
Qed.



End EngineExactMore.



(** For a bar with min_value <= value <= max_value and min_value <
    max_value, the percentage lies between 0 and 100; it is 0 at min_value
    and 100 at max_value. *)
Theorem percentage_within_bounds {A : Type} (self : ProgressBar Qc A) (hi : Qc) :
  max_value self = MaxNumber hi ->
  (min_value self < hi)%Qc ->
  (min_value self <= value self)%Qc ->
  (value self <= hi)%Qc ->
  exists p : Qc,
    ProgressBar.percentage self = Ok (Some p) /\
    (0 <= p)%Qc /\ (p <= Qc_of_Z 100)%Qc /\
    (value self = min_value self -> p = 0%Qc) /\
    (value self = hi -> p = Qc_of_Z 100).
Proof.
  intros Hm Hlt Hlo Hhi.
  rewrite (percentage_formula self hi Hm Hlt).
  set (w := (hi - min_value self)%Qc).
  set (r := ((value self - min_value self) / w)%Qc).
  assert (Hw : (0 < w)%Qc) by (apply Qc_sub_pos; exact Hlt).
  assert (Hw0 : w <> 0%Qc) by (apply not_eq_sym, Qclt_not_eq, Hw).
  assert (Hr : (r * w = value self - min_value self)%Qc).
  { unfold r. field. exact Hw0. }
  assert (Hr0 : (0 <= r)%Qc).
  { apply (Qcmult_le_mono_pos_r _ _ w Hw). rewrite Qcmult_0_l, Hr.
    apply Qc_sub_nonneg. exact Hlo. }
  assert (Hr1 : (r <= 1)%Qc).
  { apply (Qcmult_le_mono_pos_r _ _ w Hw). rewrite Qcmult_1_l, Hr.
    unfold w. apply (Qcplus_le_mono_r _ _ (min_value self)).
    replace (value self - min_value self + min_value self)%Qc with (value self) by ring.
    replace (hi - min_value self + min_value self)%Qc with hi by ring.
    exact Hhi. }
  assert (H100 : (0 <= Qc_of_Z 100)%Qc) by (vm_compute; discriminate).
  exists (r * Qc_of_Z 100)%Qc. split; [reflexivity|]. repeat split.
  - rewrite <- (Qcmult_0_l (Qc_of_Z 100)).
    apply Qcmult_le_mono_nonneg_r; assumption.
  - rewrite <- (Qcmult_1_l (Qc_of_Z 100)) at 2.
    apply Qcmult_le_mono_nonneg_r; assumption.
  - intros E. unfold r. rewrite E. field. exact Hw0.
  - intros E. unfold r, w. rewrite E. field. exact Hw0.
Qed.

Lemma percentage_within_bounds_witness :
  exists p : Qc,
    ProgressBar.percentage
      (mkProgressBar (A:=nat) false false None (Qc_of_Z (-10)) (MaxNumber (Qc_of_Z 10))
         true (Qc_of_Z 5) None 0 0 None None None None (Qc_of_Z 0) None [] []) =
      Ok (Some p) /\
    (0 <= p)%Qc /\ (p <= Qc_of_Z 100)%Qc.
Proof.
  destruct (percentage_within_bounds
              (mkProgressBar (A:=nat) false false None (Qc_of_Z (-10))
                 (MaxNumber (Qc_of_Z 10)) true (Qc_of_Z 5) None 0 0 None None None
                 None (Qc_of_Z 0) None [] [])
              (Qc_of_Z 10) ltac:(reflexivity) ltac:(reflexivity)
              ltac:(vm_compute; discriminate) ltac:(vm_compute; discriminate))
    as (p & Hp & H0 & H1 & _).
  exists p. split; [exact Hp|]. split; [exact H0 | exact H1].
Defined.

(** * The data of a bar *)

Section DataExact.
Local Open Scope Qc_scope.

Lemma Qfloor_div_pos (q : Qc) (k : Z) :
  (0 < k)%Z -> Qfloor (q / Qc_of_Z k)%Qc = (Qfloor q / k)%Z.
Proof.
  intros Hk.
  assert (E : (this (q / Qc_of_Z k)%Qc == this q / inject_Z k)%Q).
  { unfold Qcdiv, Qcmult, Qcinv. simpl.
    rewrite !Qred_correct. reflexivity. }
  rewrite (Qfloor_comp _ _ E).
  destruct (this q) as [n d]. unfold Qfloor, Qdiv, Qinv, inject_Z, Qmult. simpl.
  destruct k as [|p|p]; try lia. simpl.
  rewrite Z.mul_1_r. rewrite Pos2Z.inj_mul. rewrite Z.div_div by lia. reflexivity.
Qed.

Lemma Qfloor_of_Z (z : Z) : Qfloor (Qc_of_Z z) = z.
Proof. unfold Qc_of_Z. simpl. apply Z.div_1_r. Qed.

Lemma Qc_trunc_nonneg (q : Qc) : 0 <= q -> Qc_trunc q = Qfloor q.
Proof.
  intros Hq. unfold Qc_trunc, Qfloor.
  assert (Hnum : (0 <= Qnum q)%Z).
  { unfold Qcle, Qle in Hq. simpl in Hq. lia. }
  destruct (this q) as [a b]. simpl in *. apply Z.quot_div_nonneg; lia.
Qed.

Lemma floordiv_of_Z (q : Qc) (k : Z) :
  (0 < k)%Z -> ProgressBarData.floordiv q (Qc_of_Z k) = Qc_of_Z (Qfloor q / k).
Proof. intros Hk. unfold ProgressBarData.floordiv. rewrite Qfloor_div_pos by exact Hk. reflexivity. Qed.

Lemma modulo_int (n k : Z) :
  (0 < k)%Z ->
  ProgressBarData.modulo (Qc_of_Z n) (Qc_of_Z k) = Qc_of_Z (n mod k).
Proof.
  intros Hk. unfold ProgressBarData.modulo.
  rewrite floordiv_of_Z by exact Hk. rewrite Qfloor_of_Z.
  rewrite <- Z2Qc_inj_mul, <- Z2Qc_inj_sub. f_equal.
  pose proof (Z.div_mod n k ltac:(lia)). lia.
Qed.

Lemma Qc_trunc_floor_nonneg (q : Qc) : (0 <= Qfloor q)%Z -> Qc_trunc q = Qfloor q.
Proof.
  unfold Qc_trunc, Qfloor. destruct (this q) as [n d]. simpl. intros H.
  apply Z.quot_div_nonneg; [|lia].
  destruct (Z_lt_le_dec n 0) as [Hn|Hn]; [|exact Hn].
  assert (n / Z.pos d < 0)%Z by (apply Z.div_lt_upper_bound; lia). lia.
Qed.

Lemma Qfloor_sub_int (q : Qc) (z : Z) :
  Qfloor (q - Qc_of_Z z)%Qc = (Qfloor q - z)%Z.
Proof.
  assert (E : (this (q - Qc_of_Z z)%Qc == this q + inject_Z (- z))%Q).
  { unfold Qcminus, Qcplus, Qcopp. simpl. rewrite !Qred_correct.
    rewrite inject_Z_opp. reflexivity. }
  rewrite (Qfloor_comp _ _ E).
  destruct (this q) as [n d]. unfold Qfloor, Qplus, inject_Z. simpl.
  rewrite Z.mul_1_r, Pos.mul_1_r. rewrite Z.div_add by lia. lia.
Qed.

Lemma trunc_modulo (q : Qc) (k : Z) :
  (0 < k)%Z ->
  Qc_trunc (ProgressBarData.modulo q (Qc_of_Z k)) = (Qfloor q mod k)%Z.
Proof.
  intros Hk. unfold ProgressBarData.modulo.
  rewrite floordiv_of_Z by exact Hk.
  rewrite <- Z2Qc_inj_mul.
  pose proof (Z.div_mod (Qfloor q) k ltac:(lia)) as Hdm.
  pose proof (Z.mod_pos_bound (Qfloor q) k Hk) as Hb.
  rewrite Qc_trunc_floor_nonneg; rewrite Qfloor_sub_int; lia.
Qed.

End DataExact.

(** The elapsed time [data] reports is split without loss: seconds and
    minutes lie in [0, 60), hours in [0, 24), and days, hours, minutes and
    seconds add up to the whole seconds of total_seconds_elapsed; a bar that
    was never started reports an elapsed time of 0. *)
Theorem data_elapsed_decomposition {A : Type} (self : ProgressBar Qc A) (now : Qc)
    (d : ProgressBarData.t A) :
  ProgressBarData.data self now = Ok d ->
  let total := ProgressBarData.total_seconds_elapsed d in
  let s := ProgressBarData.seconds_elapsed d in
  let m := ProgressBarData.minutes_elapsed d in
  let h := ProgressBarData.hours_elapsed d in
  let days := ProgressBarData.days_elapsed d in
  total = (now - default now (start_time self))%Qc /\
  (start_time self = None -> total = 0%Qc) /\
  0 <= s < 60 /\ 0 <= m < 60 /\ 0 <= h < 24 /\
  days * 86400 + h * 3600 + m * 60 + s = Qfloor total.
Proof.
  unfold ProgressBarData.data.
  destruct (ProgressBar.percentage self) as [p|e]; [|discriminate].
  cbn [mbind]. intros [= <-].
  cbn [ProgressBarData.total_seconds_elapsed ProgressBarData.seconds_elapsed
       ProgressBarData.minutes_elapsed ProgressBarData.hours_elapsed
       ProgressBarData.days_elapsed].
  set (total := (now - default now (start_time self))%Qc).
  rewrite !floordiv_of_Z by lia.
  rewrite Qc_trunc_of_Z.
  rewrite !modulo_int by lia. rewrite !Qc_trunc_of_Z.
  rewrite trunc_modulo by lia.
  set (f := Qfloor total).
  split; [reflexivity|]. split.
  { intros Hs. unfold total. rewrite Hs. cbn [default]. ring. }
  change (24 * 3600) with 86400.
  pose proof (Z.mod_pos_bound f 60 ltac:(lia)).
  pose proof (Z.mod_pos_bound (f / 60) 60 ltac:(lia)).
  pose proof (Z.mod_pos_bound (f / 3600) 24 ltac:(lia)).
  repeat (split; [lia|]).
  pose proof (Z.div_mod f 60 ltac:(lia)).
  pose proof (Z.div_mod (f / 60) 60 ltac:(lia)).
  pose proof (Z.div_mod (f / 3600) 24 ltac:(lia)).
  assert (f / 3600 = f / 60 / 60) by (rewrite Z.div_div by lia; reflexivity).
  assert (f / 86400 = f / 3600 / 24) by (rewrite Z.div_div by lia; reflexivity).
  lia.
Qed.

Lemma data_elapsed_decomposition_witness :
  exists d : ProgressBarData.t nat,
    ProgressBarData.data
      (mkProgressBar (A:=nat) true false None (Qc_of_Z 0) (MaxNumber (Qc_of_Z 10))
         true (Qc_of_Z 5) None 0 0 (Some (Qc_of_Z 1000)) None None None (Qc_of_Z 0)
         None [] [])
      (Qc_of_Z 100000) = Ok d /\
    ProgressBarData.days_elapsed d * 86400 + ProgressBarData.hours_elapsed d * 3600 +
    ProgressBarData.minutes_elapsed d * 60 + ProgressBarData.seconds_elapsed d =
    Qfloor (ProgressBarData.total_seconds_elapsed d).
Proof.
  destruct (ProgressBarData.data
              (mkProgressBar (A:=nat) true false None (Qc_of_Z 0)
                 (MaxNumber (Qc_of_Z 10)) true (Qc_of_Z 5) None 0 0
                 (Some (Qc_of_Z 1000)) None None None (Qc_of_Z 0) None [] [])
              (Qc_of_Z 100000)) as [d|e] eqn:E; [|vm_compute in E; discriminate E].
  exists d. split; [reflexivity|].
  apply (data_elapsed_decomposition _ _ d E).
Defined.

(** * The environment *)

Section Stripping.

Let all_space (s : string) : Prop :=
  forallb is_space (list_ascii_of_string s) = true.

Lemma lower_append (a b : string) : lower (a ++ b) = lower a ++ lower b.
Proof. induction a as [|c a IH]; simpl; [reflexivity|]. rewrite IH. reflexivity. Qed.

Lemma lower_ascii_space (c : ascii) : is_space c = true -> lower_ascii c = c.
Proof.
  destruct c as [[] [] [] [] [] [] [] []]; intros Hc; try reflexivity;
    vm_compute in Hc; discriminate Hc.
Qed.

Lemma lower_all_space (s : string) : all_space s -> lower s = s.
Proof.
  unfold all_space. induction s as [|c s IH]; simpl; [reflexivity|].
  intros Hs. apply andb_true_iff in Hs as [Hc Hs].
  rewrite (lower_ascii_space c Hc), (IH Hs). reflexivity.
Qed.



Lemma lstrip_all_space (l : string) : all_space l -> lstrip l = "".
Proof.
  unfold all_space. induction l as [|c l IH]; simpl; [reflexivity|].
  intros Hs. apply andb_true_iff in Hs as [Hc Hs]. rewrite Hc. exact (IH Hs).
Qed.

Lemma lstrip_pad_left (l s : string) : all_space l -> lstrip (l ++ s) = lstrip s.
Proof.
  unfold all_space. induction l as [|c l IH]; simpl; [reflexivity|].
  intros Hs. apply andb_true_iff in Hs as [Hc Hs]. rewrite Hc. exact (IH Hs).
Qed.

Lemma lstrip_pad_right (y t : string) :
  all_space t ->
  (lstrip (y ++ t) = lstrip y ++ t /\ lstrip y <> "") \/
  (lstrip (y ++ t) = "" /\ lstrip y = "").
Proof.
  intros Ht. induction y as [|c y IH]; simpl.
  - right. split; [apply lstrip_all_space, Ht | reflexivity].
  - destruct (is_space c); [exact IH|]. left. split; [reflexivity | discriminate].
Qed.

Lemma reverse_string_involutive (s : string) : reverse_string (reverse_string s) = s.
Proof.
  unfold reverse_string. rewrite list_ascii_of_string_of_list_ascii, rev_involutive.
  apply string_of_list_ascii_of_string.
Qed.

Lemma all_space_reverse (s : string) : all_space s -> all_space (reverse_string s).
Proof.
  unfold all_space, reverse_string. rewrite list_ascii_of_string_of_list_ascii.
  rewrite !forallb_forall. intros Hs c Hc. apply Hs. apply in_rev. exact Hc.
Qed.

Lemma strip_padded (l x r : string) :
  all_space l -> all_space r -> strip (l ++ x ++ r) = strip x.
Proof.
  intros Hl Hr. unfold strip, rstrip.
  rewrite !reverse_string_append.
  rewrite append_assoc.
  rewrite (lstrip_pad_left (reverse_string r)) by (apply all_space_reverse, Hr).
  destruct (lstrip_pad_right (reverse_string x) (reverse_string l)
              (all_space_reverse l Hl)) as [[E Hne]|[E E0]]; rewrite E.
  - rewrite reverse_string_append, reverse_string_involutive.
    apply lstrip_pad_left, Hl.
  - rewrite E0. reflexivity.
Qed.

End Stripping.

(** [env_flag] reads the value without regard to letter case and to
    surrounding whitespace: two values with the same lower-case form, one
    of them padded with whitespace on either side, give the same answer
    for every default. *)
Theorem env_flag_ignores_case_and_padding (environ : gmap string string)
    (name value value' l r : string) (default : option bool) :
  lower value' = lower value ->
  forallb is_space (list_ascii_of_string l) = true ->
  forallb is_space (list_ascii_of_string r) = true ->
  env.env_flag (<[name := l ++ value' ++ r]> environ) name default =
  env.env_flag (<[name := value]> environ) name default.
Proof.
  intros Hv Hl Hr. unfold env.env_flag. rewrite !lookup_insert_eq.
  rewrite !lower_append, Hv, (lower_all_space l Hl), (lower_all_space r Hr).
  rewrite (strip_padded l (lower value) r Hl Hr). reflexivity.
Qed.

Lemma env_flag_ignores_case_and_padding_witness :
  env.env_flag (<["FORCE_COLOR" := "  " ++ "Yes" ++ " "]> ∅) "FORCE_COLOR" None =
  env.env_flag (<["FORCE_COLOR" := "yes"]> ∅) "FORCE_COLOR" None.
Proof.
  apply (env_flag_ignores_case_and_padding ∅ "FORCE_COLOR" "yes" "Yes" "  " " " None);
    reflexivity.
Defined.

Section ColorSupport.
Variable environ : gmap string string.

Let term := lower (default "" (environ !! "TERM")).
Let colorterm := lower (default "" (environ !! "COLORTERM")).
Let color := lower (default "" (environ !! "COLOR")).

Lemma level_of_none (value : string) :
  env.level_of value = None <->
  contains "24bit" value = false /\ contains "truecolor" value = false /\
  contains "256" value = false /\ contains "xterm" value = false.
Proof.
  unfold env.level_of.
  destruct (contains "24bit" value), (contains "truecolor" value),
    (contains "256" value), (contains "xterm" value); simpl;
    (split; [intros Hn; try discriminate Hn; repeat split
           | intros (H1 & H2 & H3 & H4); try discriminate; reflexivity]).
Qed.

Lemma level_of_not_windows (value : string) : env.level_of value <> Some env.WINDOWS.
Proof.
  unfold env.level_of.
  destruct (_ || _); [discriminate|].
  destruct (contains "256" value); [discriminate|].
  destruct (contains "xterm" value); discriminate.
Qed.

Lemma level_of_not_none (value : string) : env.level_of value <> Some env.NONE.
Proof.
  unfold env.level_of.
  destruct (_ || _); [discriminate|].
  destruct (contains "256" value); [discriminate|].
  destruct (contains "xterm" value); discriminate.
Qed.

Lemma from_env_unfold :
  env.JUPYTER environ = false ->
  env.from_env environ = env.first_level [term; colorterm; color].
Proof. intros HJ. unfold env.from_env. rewrite HJ. reflexivity. Qed.

End ColorSupport.

(** [from_env] looks at TERM, COLORTERM and COLOR in this order and stops
    at the first value that names a level: outside Jupyter, when TERM holds
    one of the markers, neither COLORTERM nor COLOR changes the outcome. *)
Theorem from_env_term_decides (environ : gmap string string)
    (colorterm color : string) (level : env.ColorSupport) :
  env.JUPYTER environ = false ->
  env.level_of (lower (default "" (environ !! "TERM"))) = Some level ->
  env.from_env (<["COLORTERM" := colorterm]> (<["COLOR" := color]> environ)) = level /\
  env.from_env environ = level.
Proof.
  intros HJ Hl.
  assert (HJ' : env.JUPYTER (<["COLORTERM" := colorterm]> (<["COLOR" := color]> environ))
                = false).
  { unfold env.JUPYTER in *. rewrite !lookup_insert_ne by discriminate. exact HJ. }
  rewrite (from_env_unfold _ HJ'), (from_env_unfold _ HJ).
  cbn [env.first_level]. rewrite !lookup_insert_ne by discriminate.
  rewrite Hl. split; reflexivity.
Qed.

Lemma from_env_term_decides_witness :
  env.from_env (<["COLORTERM" := "truecolor"]>
                  (<["COLOR" := ""]> (<["TERM" := "xterm-256color"]> ∅))) =
  env.XTERM_256.
Proof.
  apply (from_env_term_decides (<["TERM" := "xterm-256color"]> ∅) "truecolor" ""
           env.XTERM_256); reflexivity.
Defined.

Lemma from_env_not_windows (environ : gmap string string) :
  env.from_env environ <> env.WINDOWS.
Proof.
  unfold env.from_env. destruct (env.JUPYTER environ); [discriminate|].
  cbn [env.first_level].
  pose proof (level_of_not_windows (lower (default "" (environ !! "TERM")))).
  pose proof (level_of_not_windows (lower (default "" (environ !! "COLORTERM")))).
  pose proof (level_of_not_windows (lower (default "" (environ !! "COLOR")))).
  destruct (env.level_of _); [congruence|].
  destruct (env.level_of _); [congruence|].
  destruct (env.level_of _); [congruence | discriminate].
Qed.

(** [from_env] never answers WINDOWS, and it answers NONE exactly when no
    Jupyter variable is set and none of TERM, COLORTERM and COLOR, in
    lower case, contains '24bit', 'truecolor', '256' or 'xterm'. *)
Theorem from_env_levels (environ : gmap string string) :
  env.from_env environ <> env.WINDOWS /\
  (env.from_env environ = env.NONE <->
   env.JUPYTER environ = false /\
   forall name marker,
     In name ["TERM"; "COLORTERM"; "COLOR"] ->
     In marker ["24bit"; "truecolor"; "256"; "xterm"] ->
     contains marker (lower (default "" (environ !! name))) = false).
Proof.
  unfold env.from_env. destruct (env.JUPYTER environ) eqn:HJ.
  { split; [discriminate|]. split; [discriminate | intros [? _]; discriminate]. }
  cbn [env.first_level].
  set (term := lower (default "" (environ !! "TERM"))).
  set (colorterm := lower (default "" (environ !! "COLORTERM"))).
  set (color := lower (default "" (environ !! "COLOR"))).
  pose proof (level_of_not_windows term) as W1.
  pose proof (level_of_not_windows colorterm) as W2.
  pose proof (level_of_not_windows color) as W3.
  pose proof (level_of_not_none term) as N1.
  pose proof (level_of_not_none colorterm) as N2.
  pose proof (level_of_not_none color) as N3.
  pose proof (level_of_none term) as L1.
  pose proof (level_of_none colorterm) as L2.
  pose proof (level_of_none color) as L3.
  split.
  - destruct (env.level_of term); [congruence|].
    destruct (env.level_of colorterm); [congruence|].
    destruct (env.level_of color); [congruence | discriminate].
  - split.
    + intros Hnone. split; [reflexivity|].
      destruct (env.level_of term); [congruence|].
      destruct (env.level_of colorterm); [congruence|].
      destruct (env.level_of color); [congruence|].
      destruct (proj1 L1 eq_refl) as (? & ? & ? & ?).
      destruct (proj1 L2 eq_refl) as (? & ? & ? & ?).
      destruct (proj1 L3 eq_refl) as (? & ? & ? & ?).
      intros name marker Hn Hm. simpl in Hn, Hm.
      destruct Hn as [<-|[<-|[<-|[]]]]; destruct Hm as [<-|[<-|[<-|[<-|[]]]]];
        assumption.
    + intros [_ Hall].
      assert (H1 : env.level_of term = None).
      { apply L1. repeat split; apply Hall; simpl; tauto. }
      assert (H2 : env.level_of colorterm = None).
      { apply L2. repeat split; apply Hall; simpl; tauto. }
      assert (H3 : env.level_of color = None).
      { apply L3. repeat split; apply Hall; simpl; tauto. }
      rewrite H1, H2, H3. reflexivity.
Qed.

(** A flag that is set to a no-word does not switch colours off: with
    PROGRESSBAR_ENABLE_COLORS or FORCE_COLOR read as False, the colour
    support is determined as if the variable were not set at all. *)
Theorem off_flag_is_as_unset (import_environ environ : gmap string string)
    (is_ansi_terminal : bool) (enable_colors : enable_colors_arg) (name : string) :
  In name ["PROGRESSBAR_ENABLE_COLORS"; "FORCE_COLOR"] ->
  env.env_flag environ name None = Some false ->
  DefaultFdMixin._determine_enable_colors import_environ environ
    is_ansi_terminal enable_colors =
  DefaultFdMixin._determine_enable_colors import_environ (delete name environ)
    is_ansi_terminal enable_colors.
Proof.
  intros Hn Hoff. unfold DefaultFdMixin._determine_enable_colors.
  destruct enable_colors; try reflexivity.
  assert (Hdel : env.env_flag (delete name environ) name None = None).
  { unfold env.env_flag. rewrite lookup_delete_eq. reflexivity. }
  assert (Hother : forall other, other <> name ->
            env.env_flag (delete name environ) other None =
            env.env_flag environ other None).
  { intros other Hne. unfold env.env_flag. rewrite lookup_delete_ne by congruence.
    reflexivity. }
  simpl in Hn. destruct Hn as [<-|[<-|[]]].
  - rewrite Hoff, Hdel. rewrite (Hother "FORCE_COLOR") by discriminate. reflexivity.
  - rewrite Hoff, Hdel.
    rewrite (Hother "PROGRESSBAR_ENABLE_COLORS") by discriminate. reflexivity.
Qed.

Lemma off_flag_is_as_unset_witness :
  DefaultFdMixin._determine_enable_colors (<["TERM" := "xterm-256color"]> ∅)
    (<["PROGRESSBAR_ENABLE_COLORS" := "off"]> ∅) true ColorsAuto =
  Ok env.XTERM_256.
Proof.
  rewrite (off_flag_is_as_unset (<["TERM" := "xterm-256color"]> ∅)
             (<["PROGRESSBAR_ENABLE_COLORS" := "off"]> ∅) true ColorsAuto
             "PROGRESSBAR_ENABLE_COLORS");
    [reflexivity | simpl; tauto | reflexivity].
Defined.

(** Without an explicit setting the colour support is never WINDOWS and
    the call never raises; on a stream that is no ANSI terminal it is
    XTERM_256 when one of the two flags is read as True and NONE
    otherwise. *)
Theorem auto_colors_never_windows (import_environ environ : gmap string string)
    (is_ansi_terminal : bool) :
  exists level,
    DefaultFdMixin._determine_enable_colors import_environ environ
      is_ansi_terminal ColorsAuto = Ok level /\
    level <> env.WINDOWS /\
    (is_ansi_terminal = false ->
     level =
       if bool_decide
            (env.env_flag environ "PROGRESSBAR_ENABLE_COLORS" None = Some true \/
             env.env_flag environ "FORCE_COLOR" None = Some true)
       then env.XTERM_256 else env.NONE).
Proof.
  unfold DefaultFdMixin._determine_enable_colors.
  destruct (env.env_flag environ "PROGRESSBAR_ENABLE_COLORS" None) as [[|]|];
    cbn [default].
  1: { eexists. split; [reflexivity|]. split; [discriminate|].
       intros _. rewrite bool_decide_eq_true_2 by tauto. reflexivity. }
  all: destruct (env.env_flag environ "FORCE_COLOR" None) as [[|]|]; cbn [default].
  all: try (eexists; split; [reflexivity|]; split; [discriminate|];
            intros _; rewrite bool_decide_eq_true_2 by tauto; reflexivity).
  all: destruct is_ansi_terminal;
    (eexists; split; [reflexivity|]; split;
     [try discriminate; apply (from_env_not_windows import_environ)|]);
    intros Hans; try discriminate Hans;
    rewrite bool_decide_eq_false_2 by (intros [?|?]; discriminate); reflexivity.
Qed.


(** * Colours in exact arithmetic, continued *)

Section ColorsExactMore.
Local Open Scope Qc_scope.












End ColorsExactMore.



Section GradientStops.
Local Open Scope Qc_scope.
Variable cs : list (Color Qc).
Hypothesis two_stops : (2 <= length cs)%nat.

Let g := mkColorGradient cs Colors.interpolate.
Let n := (Z.of_nat (length cs) - 1)%Z.




End GradientStops.





(** A gradient of a single colour is accepted by the constructor, and
    raises ZeroDivisionError for every t strictly between 0 and 1. *)
Theorem gradient_single_stop_raises (c : Color Qc)
    (interp : Color Qc -> Color Qc -> Qc -> result (Color Qc)) (t : Qc) :
  (0 < t)%Qc -> (t < 1)%Qc ->
  ColorGradient.__init__ [c] interp = Ok (mkColorGradient [c] interp) /\
  ColorGradient.get_color (mkColorGradient [c] interp) t = Raise ZeroDivisionError.
Proof.
  intros Ht0 Ht1. split; [reflexivity|].
  unfold ColorGradient.get_color.
  change (of_int 0) with (Qc_of_Z 0). change (of_int 1) with (Qc_of_Z 1).
  rewrite Z2Qc_inj_0, Z2Qc_inj_1.
  rewrite (proj2 (Qc_fleb_false t 0)) by exact Ht0.
  unfold fgeb. rewrite (proj2 (Qc_fleb_false 1 t)) by exact Ht1.
  reflexivity.
Qed.

Lemma gradient_single_stop_raises_witness :
  ColorGradient.get_color (mkColorGradient [red_color] Colors.interpolate)
    (Q2Qc (1 # 2)) = Raise ZeroDivisionError.
Proof.
  apply (gradient_single_stop_raises red_color Colors.interpolate (Q2Qc (1 # 2)));
    reflexivity.
Defined.

(** * Smoothing *)

Section Smoothing.
Local Open Scope Qc_scope.






End Smoothing.





(** * The colour registry, continued *)

(** A registration touches only the keys of the new colour: under every
    other name, lower-case name, rgb and hls the lists are what they were,
    every other xterm code keeps its colour, and no list of any key loses
    an entry or changes the order of the ones it had. *)
Theorem register_keeps_the_rest {F : Type} `{Countable F} (cls : Colors F)
    (rgb1 : RGB) (hls1 : HSL F) (name1 : string) (xterm1 : Z) :
  let cls' := (Colors.register cls rgb1 hls1 name1 xterm1).1 in
  (forall k, k <> name1 -> entries (by_name cls') k = entries (by_name cls) k) /\
  (forall k, k <> lower name1 ->
     entries (by_lowername cls') k = entries (by_lowername cls) k) /\
  (forall k, k <> rgb1 -> entries (by_rgb cls') k = entries (by_rgb cls) k) /\
  (forall k, k <> hls1 -> entries (by_hls cls') k = entries (by_hls cls) k) /\
  (forall k, k <> xterm1 -> by_xterm cls' !! k = by_xterm cls !! k) /\
  (forall k, entries (by_name cls) k `prefix_of` entries (by_name cls') k) /\
  (forall k, entries (by_lowername cls) k `prefix_of` entries (by_lowername cls') k) /\
  (forall k, entries (by_rgb cls) k `prefix_of` entries (by_rgb cls') k) /\
  (forall k, entries (by_hls cls) k `prefix_of` entries (by_hls cls') k).
Proof.
  intros cls'. unfold cls', Colors.register. cbn [fst by_name by_lowername by_rgb
                                                 by_hls by_xterm].
  repeat split; intros k; try (intros Hne).
  1-4: apply entries_append_to_ne; congruence.
  - apply lookup_insert_ne. congruence.
  - apply entries_append_to_prefix.
  - apply entries_append_to_prefix.
  - apply entries_append_to_prefix.
  - apply entries_append_to_prefix.
Qed.
